(** * The scaling engine of core_scaling_engine.py

    A shallow embedding of [UltraFastScalingEngine]: the opportunity
    scorer ([analyze_scaling_opportunities] and its helpers) and the
    bounded action executor ([execute_scaling_actions]).

    Numbers.  Python's numbers are modelled as exact rationals [Q]; the
    rounding of binary floating point is not modelled.  Equality of
    amounts is therefore [Qeq] (written [==]).

    Dictionaries.  The dictionaries of the source are used as structs
    with fixed keys, so they are records; a key that a caller may leave
    out is an [option] field, read with [dict_get] (for [d.get(k, v)])
    or with [dict_item] (for [d[k]], which raises [KeyError]).

    Exceptions.  Code that can raise lives in the error monad [res];
    every [try ... except Exception] of the source is a [try_except]. *)

From Stdlib Require Import String QArith Qminmax ZArith List Bool.
From Stdlib Require Import Lia Lqa Permutation Sorted DecimalString.
Import ListNotations.

Open Scope Q_scope.

(** ** Exceptions *)

Inductive exn : Type :=
| ZeroDivisionError
| KeyError (key : string).

Inductive res (A : Type) : Type :=
| Ok (a : A)
| Raise (e : exn).

Arguments Ok {A} a.
Arguments Raise {A} e.

Definition bind {A B : Type} (c : res A) (k : A -> res B) : res B :=
  match c with
  | Ok a => k a
  | Raise e => Raise e
  end.

Notation "x <- c ;; k" := (bind c (fun x => k))
  (at level 61, c at next level, right associativity).

Definition try_except {A : Type} (body : res A) (handler : exn -> A) : A :=
  match body with
  | Ok a => a
  | Raise e => handler e
  end.

(** ** Python primitives *)

Definition Qlt_bool (a b : Q) : bool := negb (Qle_bool b a).

(** [a / b]: true division raises on a zero divisor, for ints and floats. *)
Definition py_div (a b : Q) : res Q :=
  if Qeq_bool b 0 then Raise ZeroDivisionError else Ok (a / b).

(** [sum(l)]: left to right, starting from 0. *)
Definition py_sum (l : list Q) : Q := fold_left Qplus l 0.

Definition of_nat (n : nat) : Q := inject_Z (Z.of_nat n).

(** A slice bound [i] of a list of length [len]: negative bounds count
    from the end, and every bound is clipped to [0 .. len]. *)
Definition slice_bound (len : nat) (i : Z) : nat :=
  if (i <? 0)%Z then Z.to_nat (Z.max 0 (i + Z.of_nat len))
  else Nat.min (Z.to_nat i) len.

(** [l[lo:hi]], a missing bound being [None]. *)
Definition py_slice {A : Type} (lo hi : option Z) (l : list A) : list A :=
  let n := length l in
  let a := match lo with Some i => slice_bound n i | None => 0%nat end in
  let b := match hi with Some i => slice_bound n i | None => n end in
  firstn (b - a) (skipn a l).

(** [d.get(k, v)] *)
Definition dict_get {A : Type} (field : option A) (default : A) : A :=
  match field with
  | Some v => v
  | None => default
  end.

(** [d[k]] *)
Definition dict_item {A : Type} (key : string) (field : option A) : res A :=
  match field with
  | Some v => Ok v
  | None => Raise (KeyError key)
  end.

(** ** The data model *)

Module Product.
Record t : Type := mk {
  name : option string;
  daily_revenue : option Q;
  historical_data : option (list Q);
  conversion_rate : option Q;
  traffic_volume : option Q;
  profit_margin : option Q;
  cac : option Q;
  ltv : option Q
}.
End Product.

Module Metrics.
Record t : Type := mk {
  current_revenue : option Q;
  growth_rate : option Q;
  conversion_rate : option Q;
  traffic_volume : option Q;
  profit_margin : option Q;
  customer_acquisition_cost : option Q;
  lifetime_value : option Q
}.
End Metrics.

Module Action.
Record t : Type := mk {
  type : option string;
  multiplier : option Q;
  budget : option Q;
  expected_increase : option Q
}.
End Action.

Module Strategy.
Record t : Type := mk {
  actions : list Action.t;
  budget_allocation : option (list (string * Q));
  timeline : string;
  expected_roi : option Q;
  risk_level : option string
}.
End Strategy.

Module Candidate.
Record t : Type := mk {
  product : Product.t;
  metrics : Metrics.t;
  opportunity_score : Q;
  scaling_strategy : Strategy.t;
  estimated_roi : Q
}.
End Candidate.

(** The engine object: [self.config], [self.scaling_thresholds],
    [self.scaling_multipliers] and [self.performance_metrics]. *)

Record Config : Type := {
  openai_api_key : option string;
  daily_target : Q;
  auto_scaling_enabled : bool;
  max_ad_spend : Q;
  risk_tolerance : Q
}.

Record Thresholds : Type := {
  revenue_threshold : Q;
  growth_rate_threshold : Q;
  conversion_threshold : Q;
  max_concurrent_scales : Z
}.

Record Multipliers : Type := {
  ad_spend : Q;
  audience_expansion : Q;
  price_optimization : Q;
  content_variation : Q;
  platform_expansion : Q
}.

Module Perf.
Record t : Type := mk {
  scales_executed : Z;
  success_rate : Q;
  total_revenue_increase : Q;
  last_optimization : Q
}.
End Perf.

Record Engine : Type := {
  config : Config;
  scaling_thresholds : Thresholds;
  scaling_multipliers : Multipliers;
  performance_metrics : Perf.t
}.

(** [__init__] with no environment variable set; [now] is the clock. *)
Definition default_config : Config :=
  {| openai_api_key := None;
     daily_target := 1000;
     auto_scaling_enabled := true;
     max_ad_spend := 1000;
     risk_tolerance := 7 # 10 |}.

Definition default_thresholds : Thresholds :=
  {| revenue_threshold := 500;
     growth_rate_threshold := 20;
     conversion_threshold := 2;
     max_concurrent_scales := 5 |}.

Definition default_multipliers : Multipliers :=
  {| ad_spend := 15 # 10;
     audience_expansion := 2;
     price_optimization := 13 # 10;
     content_variation := 18 # 10;
     platform_expansion := 25 # 10 |}.

Definition create_scaling_engine (now : Q) : Engine :=
  {| config := default_config;
     scaling_thresholds := default_thresholds;
     scaling_multipliers := default_multipliers;
     performance_metrics := Perf.mk 0 95 0 now |}.

(** ** The opportunity scorer *)

(** The metrics dictionary built on both regular paths of
    [_calculate_product_metrics]. *)
Definition product_metrics (product : Product.t) (growth_rate : Q) : Metrics.t :=
  Metrics.mk
    (Some (dict_get (Product.daily_revenue product) 0))
    (Some growth_rate)
    (Some (dict_get (Product.conversion_rate product) (25 # 10)))
    (Some (dict_get (Product.traffic_volume product) 1000))
    (Some (dict_get (Product.profit_margin product) (7 # 10)))
    (Some (dict_get (Product.cac product) 50))
    (Some (dict_get (Product.ltv product) 200)).

(** The dictionary of the [except] branch. *)
Definition fallback_metrics : Metrics.t :=
  Metrics.mk (Some 0) (Some 0) (Some 0) (Some 0) (Some (7 # 10)) (Some 50) (Some 200).

Definition recent_window (historical_data : list Q) : list Q :=
  py_slice (Some (-7)%Z) None historical_data.

Definition older_window (historical_data : list Q) : list Q :=
  py_slice (Some (-14)%Z) (Some (-7)%Z) historical_data.

(** The [try] block of [_calculate_product_metrics]. *)
Definition product_metrics_body (product : Product.t) : res Metrics.t :=
  let historical_data := dict_get (Product.historical_data product) [] in
  if (length historical_data <? 2)%nat then
    Ok (product_metrics product 25)
  else
    recent_avg <- py_div (py_sum (recent_window historical_data))
                         (of_nat (Nat.min 7 (length historical_data))) ;;
    older_avg <- py_div (py_sum (older_window historical_data))
                        (of_nat (Nat.min 7 (length (older_window historical_data)))) ;;
    growth_rate <- (if Qlt_bool 0 older_avg
                    then (r <- py_div (recent_avg - older_avg) older_avg ;; Ok (r * 100))
                    else Ok 25) ;;
    Ok (product_metrics product growth_rate).

Definition _calculate_product_metrics (product : Product.t) : Metrics.t :=
  try_except (product_metrics_body product) (fun _ => fallback_metrics).

(** The efficiency score (LTV/CAC ratio) of [_calculate_opportunity_score]:
    [min(ltv / cac / 5, 1.0) if cac > 0 else 0]. *)
Definition efficiency (ltv cac : Q) : res Q :=
  if Qlt_bool 0 cac
  then (a <- py_div ltv cac ;; b <- py_div a 5 ;; Ok (Qmin b 1))
  else Ok 0.

(** The [try] block of [_calculate_opportunity_score]. *)
Definition opportunity_score_body (self : Engine) (metrics : Metrics.t) : res Q :=
  let revenue_factor := 3 # 10 in
  let growth_factor := 25 # 100 in
  let conversion_factor := 2 # 10 in
  let profit_factor := 15 # 100 in
  let efficiency_factor := 1 # 10 in
  r <- py_div (dict_get (Metrics.current_revenue metrics) 0)
              (revenue_threshold (scaling_thresholds self)) ;;
  let revenue_score := Qmin r 1 in
  g <- py_div (dict_get (Metrics.growth_rate metrics) 0) 100 ;;
  let growth_score := Qmin g 1 in
  c <- py_div (dict_get (Metrics.conversion_rate metrics) 0) 10 ;;
  let conversion_score := Qmin c 1 in
  let profit_score := Qmin (dict_get (Metrics.profit_margin metrics) 0) 1 in
  let ltv := dict_get (Metrics.lifetime_value metrics) 0 in
  let cac := dict_get (Metrics.customer_acquisition_cost metrics) 1 in
  efficiency_score <- efficiency ltv cac ;;
  let total_score :=
    revenue_score * revenue_factor +
    growth_score * growth_factor +
    conversion_score * conversion_factor +
    profit_score * profit_factor +
    efficiency_score * efficiency_factor in
  Ok (Qmax 0 (Qmin 1 total_score)).

Definition _calculate_opportunity_score (self : Engine) (metrics : Metrics.t) : Q :=
  try_except (opportunity_score_body self metrics) (fun _ => 0).

(** [sum(action[key] for action in actions)] *)
Fixpoint sum_items (key : string) (field : Action.t -> option Q)
         (actions : list Action.t) (acc : Q) : res Q :=
  match actions with
  | [] => Ok acc
  | action :: rest =>
      v <- dict_item key (field action) ;;
      sum_items key field rest (acc + v)
  end.

Definition ad_spend_action (self : Engine) (current_revenue : Q) : Action.t :=
  Action.mk (Some "ad_spend_increase"%string)
            (Some (ad_spend (scaling_multipliers self)))
            (Some (Qmin (current_revenue * (3 # 10)) (max_ad_spend (config self))))
            (Some (current_revenue * (5 # 10))).

Definition audience_action (self : Engine) (current_revenue : Q) : Action.t :=
  Action.mk (Some "audience_expansion"%string)
            (Some (audience_expansion (scaling_multipliers self)))
            (Some (current_revenue * (2 # 10)))
            (Some (current_revenue * (8 # 10))).

Definition platform_action (self : Engine) (current_revenue : Q) : Action.t :=
  Action.mk (Some "platform_expansion"%string)
            (Some (platform_expansion (scaling_multipliers self)))
            (Some (current_revenue * (4 # 10)))
            (Some (current_revenue * (12 # 10))).

Definition price_action (self : Engine) (current_revenue : Q) : Action.t :=
  Action.mk (Some "price_optimization"%string)
            (Some (price_optimization (scaling_multipliers self)))
            (Some (current_revenue * (1 # 10)))
            (Some (current_revenue * (3 # 10))).

(** The successive [strategy['actions'].append(...)] of
    [_generate_scaling_strategy]. *)
Definition strategy_actions (self : Engine) (metrics : Metrics.t) : list Action.t :=
  let current_revenue := dict_get (Metrics.current_revenue metrics) 0 in
  let growth_rate := dict_get (Metrics.growth_rate metrics) 0 in
  let conversion_rate := dict_get (Metrics.conversion_rate metrics) 0 in
  let th := scaling_thresholds self in
  (if Qle_bool (revenue_threshold th) current_revenue
   then [ad_spend_action self current_revenue] else []) ++
  (if Qlt_bool (growth_rate_threshold th) growth_rate
   then [audience_action self current_revenue] else []) ++
  (if Qlt_bool (conversion_threshold th) conversion_rate
   then [platform_action self current_revenue] else []) ++
  [price_action self current_revenue].

(** The [try] block of [_generate_scaling_strategy]. *)
Definition scaling_strategy_body (self : Engine) (product : Product.t)
           (metrics : Metrics.t) : res Strategy.t :=
  let actions := strategy_actions self metrics in
  total_investment <- sum_items "budget" Action.budget actions 0 ;;
  total_expected_return <- sum_items "expected_increase" Action.expected_increase actions 0 ;;
  expected_roi <- (if Qlt_bool 0 total_investment
                   then (r <- py_div total_expected_return total_investment ;;
                         Ok ((r - 1) * 100))
                   else Ok 0) ;;
  Ok (Strategy.mk actions (Some []) "immediate" (Some expected_roi) (Some "medium"%string)).

Definition fallback_strategy : Strategy.t :=
  Strategy.mk [] None "immediate" (Some 0) (Some "low"%string).

Definition _generate_scaling_strategy (self : Engine) (product : Product.t)
           (metrics : Metrics.t) : Strategy.t :=
  try_except (scaling_strategy_body self product metrics) (fun _ => fallback_strategy).

Definition opt_string_eqb (a : option string) (b : string) : bool :=
  match a with
  | Some s => String.eqb s b
  | None => false
  end.

(** [_estimate_roi]: nothing in its [try] block can raise on these
    types, so the [except] branch is not reachable. *)
Definition _estimate_roi (metrics : Metrics.t) (strategy : Strategy.t) : Q :=
  let base_roi := dict_get (Strategy.expected_roi strategy) 0 in
  let growth_rate := dict_get (Metrics.growth_rate metrics) 0 in
  let conversion_rate := dict_get (Metrics.conversion_rate metrics) 0 in
  let base_roi := if Qlt_bool 50 growth_rate then base_roi * (13 # 10) else base_roi in
  let base_roi := if Qlt_bool 5 conversion_rate then base_roi * (12 # 10) else base_roi in
  let risk_adjustment :=
    if opt_string_eqb (Strategy.risk_level strategy) "high" then 8 # 10
    else if opt_string_eqb (Strategy.risk_level strategy) "low" then 11 # 10
    else 1 in
  Qmax 0 (Qmin 500 (base_roi * risk_adjustment)).

(** The record appended for a product that passes the threshold. *)
Definition make_candidate (self : Engine) (product : Product.t) : Candidate.t :=
  let metrics := _calculate_product_metrics product in
  let opportunity_score := _calculate_opportunity_score self metrics in
  let scaling_strategy := _generate_scaling_strategy self product metrics in
  Candidate.mk product metrics opportunity_score scaling_strategy
               (_estimate_roi metrics scaling_strategy).

(** The [for product in products] loop of [analyze_scaling_opportunities]. *)
Fixpoint scaling_candidates (self : Engine) (products : list Product.t)
  : list Candidate.t :=
  match products with
  | [] => []
  | product :: rest =>
      let metrics := _calculate_product_metrics product in
      if Qle_bool (8 # 10) (_calculate_opportunity_score self metrics)
      then make_candidate self product :: scaling_candidates self rest
      else scaling_candidates self rest
  end.

(** The sort key [x['opportunity_score'] * x['estimated_roi']]. *)
Definition rank_key (x : Candidate.t) : Q :=
  Candidate.opportunity_score x * Candidate.estimated_roi x.

(** [l.sort(key=key, reverse=True)].  Python's sort is stable, also when
    reversed, so its result is the one descending arrangement in which
    equal keys keep their input order; insertion from the right computes
    that arrangement. *)
Section Sort.
Context {A : Type} (key : A -> Q).

Fixpoint insert_desc (x : A) (l : list A) : list A :=
  match l with
  | [] => [x]
  | y :: l' => if Qle_bool (key y) (key x) then x :: l else y :: insert_desc x l'
  end.

Definition sort_reverse (l : list A) : list A := fold_right insert_desc [] l.

(** The order of the result: keys do not increase. *)
Definition desc (a b : A) : Prop := key b <= key a.
End Sort.

(** [analyze_scaling_opportunities].  Its helpers catch their own
    exceptions, so the outer [except] branch is not reachable here. *)
Definition analyze_scaling_opportunities (self : Engine) (products : list Product.t)
  : list Candidate.t :=
  py_slice None (Some (max_concurrent_scales (scaling_thresholds self)))
           (sort_reverse rank_key (scaling_candidates self products)).

(** The products of [test_scaling_engine]. *)
Definition sample_products : list Product.t :=
  [ Product.mk (Some "AI Writing Tool"%string) (Some 750)
      (Some [500; 550; 600; 650; 700; 750; 800; 850; 900; 950; 1000])
      (Some (32 # 10)) (Some 1000) (Some (8 # 10)) None None;
    Product.mk (Some "Digital Course"%string) (Some 1200)
      (Some [800; 850; 900; 950; 1000; 1050; 1100; 1150; 1200; 1250; 1300])
      (Some (28 # 10)) (Some 1500) (Some (9 # 10)) None None ].

(** ** The bounded action executor *)

Module ActionResult.
Record t : Type := mk {
  investment : option Q;
  expected_return : option Q;
  action_type : option string;
  status : option string
}.
End ActionResult.

Module Report.
Record t : Type := mk {
  executed_actions : Z;
  total_investment : Q;
  expected_return : Q;
  failed_actions : Z;
  success_rate : Q;
  execution_time : Q
}.
End Report.

(** A coroutine that was run to its end: the seconds it spent suspended
    and what it returned. *)
Definition timed (A : Type) : Type := (Q * A)%type.

Definition success_result (kind : string) (budget expected_increase : Q)
  : ActionResult.t :=
  ActionResult.mk (Some budget) (Some expected_increase) (Some kind)
                  (Some "success"%string).

Definition failed_result (kind : string) : ActionResult.t :=
  ActionResult.mk (Some 0) (Some 0) (Some kind) (Some "failed"%string).

Definition unknown_result (action_type : string) : ActionResult.t :=
  ActionResult.mk (Some 0) (Some 0) (Some action_type) (Some "unknown_action"%string).

(** The dictionary that stands for every unit after [asyncio.TimeoutError]. *)
Definition timeout_result : ActionResult.t :=
  ActionResult.mk (Some 0) (Some 0) None (Some "timeout"%string).

Section Executor.
(** The external call of a handler.  The source simulates it with
    [asyncio.sleep(0.1)] ("replace with actual API calls"); the time it
    takes is left open here so that a slow call can be described. *)
Variable api_delay : Product.t -> Action.t -> Q.

(** [_increase_ad_spend], [_expand_audience] and [_expand_platforms]
    differ only in the kind they report: both keys are read with
    [action[...]] before the call is awaited. *)
Definition strict_handler (kind : string) (product : Product.t) (action : Action.t)
  : timed ActionResult.t :=
  try_except
    (budget <- dict_item "budget" (Action.budget action) ;;
     expected_increase <- dict_item "expected_increase" (Action.expected_increase action) ;;
     Ok (api_delay product action, success_result kind budget expected_increase))
    (fun _ => (0, failed_result kind)).

Definition _increase_ad_spend := strict_handler "ad_spend_increase".
Definition _expand_audience := strict_handler "audience_expansion".
Definition _expand_platforms := strict_handler "platform_expansion".

(** [_optimize_pricing] reads the budget with [action.get('budget', 0)]. *)
Definition _optimize_pricing (product : Product.t) (action : Action.t)
  : timed ActionResult.t :=
  try_except
    (let budget := dict_get (Action.budget action) 0 in
     expected_increase <- dict_item "expected_increase" (Action.expected_increase action) ;;
     Ok (api_delay product action,
         success_result "price_optimization" budget expected_increase))
    (fun _ => (0, failed_result "price_optimization")).

(** [_execute_single_action]: its [except] branch logs and re-raises. *)
Definition _execute_single_action (product : Product.t) (action : Action.t)
  : timed (res ActionResult.t) :=
  match dict_item "type" (Action.type action) with
  | Raise e => (0, Raise e)
  | Ok action_type =>
      let returned (r : timed ActionResult.t) := (fst r, Ok (snd r)) in
      if String.eqb action_type "ad_spend_increase" then
        returned (_increase_ad_spend product action)
      else if String.eqb action_type "audience_expansion" then
        returned (_expand_audience product action)
      else if String.eqb action_type "platform_expansion" then
        returned (_expand_platforms product action)
      else if String.eqb action_type "price_optimization" then
        returned (_optimize_pricing product action)
      else (0, Ok (unknown_result action_type))
  end.

(** The nested loops that create one task per (candidate, action). *)
Definition create_tasks (candidates : list Candidate.t)
  : list (timed (res ActionResult.t)) :=
  flat_map
    (fun candidate =>
       map (_execute_single_action (Candidate.product candidate))
           (Strategy.actions (Candidate.scaling_strategy candidate)))
    candidates.

(** When the last of the tasks, all started together, has finished. *)
Definition gather_time {A : Type} (tasks : list (timed A)) : Q :=
  fold_right (fun t acc => Qmax (fst t) acc) 0 tasks.

(** [asyncio.wait_for] on [asyncio.gather] of the tasks with
    [return_exceptions=True]: the list of what each task returned or raised, in task
    order, when every task finishes before the deadline; [None], for
    [asyncio.TimeoutError], otherwise. *)
Definition wait_for_gather {A : Type} (timeout : Q) (tasks : list (timed A))
  : option (list A) :=
  if forallb (fun t => Qlt_bool (fst t) timeout) tasks
  then Some (map snd tasks)
  else None.

Definition action_results (tasks : list (timed (res ActionResult.t)))
  : list (res ActionResult.t) :=
  match wait_for_gather 30 tasks with
  | Some results => results
  | None => repeat (Ok timeout_result) (length tasks)
  end.

(** Seconds between [start_time] and the end of the wait. *)
Definition elapsed (tasks : list (timed (res ActionResult.t))) : Q :=
  match wait_for_gather 30 tasks with
  | Some _ => gather_time tasks
  | None => 30
  end.

Definition empty_report : Report.t := Report.mk 0 0 0 0 0 0.

(** One turn of the loop [for result in action_results]. *)
Definition process_result (results : Report.t) (result : res ActionResult.t)
  : Report.t :=
  match result with
  | Raise _ =>
      Report.mk (Report.executed_actions results)
                (Report.total_investment results)
                (Report.expected_return results)
                (Report.failed_actions results + 1)
                (Report.success_rate results)
                (Report.execution_time results)
  | Ok r =>
      Report.mk (Report.executed_actions results + 1)
                (Report.total_investment results
                 + dict_get (ActionResult.investment r) 0)
                (Report.expected_return results
                 + dict_get (ActionResult.expected_return r) 0)
                (Report.failed_actions results)
                (Report.success_rate results)
                (Report.execution_time results)
  end.

Definition process_results (l : list (res ActionResult.t)) : Report.t :=
  fold_left process_result l empty_report.

(** The [try] block of [execute_scaling_actions], started at [now]:
    the report and the engine with its counters updated. *)
Definition execute_body (self : Engine) (now : Q) (candidates : list Candidate.t)
  : res (Report.t * Engine) :=
  let tasks := create_tasks candidates in
  let results := process_results (action_results tasks) in
  let total_actions := length (action_results tasks) in
  success_rate <- (if (0 <? total_actions)%nat
                   then (r <- py_div (inject_Z (Report.executed_actions results))
                                     (of_nat total_actions) ;;
                         Ok (r * 100))
                   else Ok (Report.success_rate results)) ;;
  let execution_time := elapsed tasks in
  let results :=
    Report.mk (Report.executed_actions results)
              (Report.total_investment results)
              (Report.expected_return results)
              (Report.failed_actions results)
              success_rate execution_time in
  let pm := performance_metrics self in
  let pm' :=
    Perf.mk (Perf.scales_executed pm + Report.executed_actions results)
            (Report.success_rate results)
            (Perf.total_revenue_increase pm + Report.expected_return results)
            (now + execution_time) in
  Ok (results,
      {| config := config self;
         scaling_thresholds := scaling_thresholds self;
         scaling_multipliers := scaling_multipliers self;
         performance_metrics := pm' |}).

(** The report of the [except] branch. *)
Definition failure_report : Report.t := Report.mk 0 0 0 1 0 0.

Definition execute_scaling_actions (self : Engine) (now : Q)
           (candidates : list Candidate.t) : Report.t * Engine :=
  try_except (execute_body self now candidates) (fun _ => (failure_report, self)).
End Executor.

(** The delay of the source as it stands. *)
Definition simulated_delay (_ : Product.t) (_ : Action.t) : Q := 1 # 10.

(** ** Vocabulary and inputs of the statements *)

(** The total that [sum_items] computes when no key is missing. *)
Definition total_of (field : Action.t -> option Q) (actions : list Action.t) (acc : Q) : Q :=
  fold_left (fun acc action => acc + dict_get (field action) 0) actions acc.

(** The expected ROI stored in the strategy. *)
Definition plan_roi (actions : list Action.t) : Q :=
  let total_investment := total_of Action.budget actions 0 in
  let total_expected_return := total_of Action.expected_increase actions 0 in
  if Qlt_bool 0 total_investment
  then (total_expected_return / total_investment - 1) * 100
  else 0.

Definition degenerate_engine : Engine :=
  {| config := default_config;
     scaling_thresholds :=
       {| revenue_threshold := 0;
          growth_rate_threshold := 20;
          conversion_threshold := 2;
          max_concurrent_scales := 5 |};
     scaling_multipliers := default_multipliers;
     performance_metrics := Perf.mk 0 95 0 0 |}.

Definition no_product : Product.t :=
  Product.mk None None None None None None None None.

Definition boosted_metrics : Metrics.t :=
  Metrics.mk (Some 1000) (Some 60) (Some 6) (Some 1000) (Some (7 # 10)) (Some 50) (Some 200).

Definition plain_metrics : Metrics.t :=
  Metrics.mk (Some 1000) (Some 25) (Some 3) (Some 1000) (Some (7 # 10)) (Some 50) (Some 200).

Definition medium_strategy : Strategy.t :=
  Strategy.mk [] (Some []) "immediate" (Some 200) (Some "medium"%string).

Definition amount_is (field : option Q) (v : Q) : Prop :=
  match field with
  | Some x => x == v
  | None => False
  end.

(** The test [opportunity_score >= 0.8] of the loop, on a product. *)
Definition qualifies (self : Engine) (product : Product.t) : bool :=
  Qle_bool (8 # 10)
           (_calculate_opportunity_score self (_calculate_product_metrics product)).

(** A new product (no history) that scores 0.8125. *)
Definition strong_product (revenue : Q) : Product.t :=
  Product.mk (Some "strong"%string) (Some revenue) None (Some 10) None (Some 1)
             (Some 50) (Some 250).

(** The engine of the source with another concurrency cap. *)
Definition engine_with_cap (k : Z) : Engine :=
  {| config := default_config;
     scaling_thresholds :=
       {| revenue_threshold := 500;
          growth_rate_threshold := 20;
          conversion_threshold := 2;
          max_concurrent_scales := k |};
     scaling_multipliers := default_multipliers;
     performance_metrics := Perf.mk 0 95 0 0 |}.

(** The arithmetic mean of a list of samples. *)
Definition mean (samples : list Q) : Q := py_sum samples / of_nat (length samples).

Definition history_product (revenue : Q) (h : list Q) : Product.t :=
  Product.mk (Some "history"%string) (Some revenue) (Some h) None None None None None.

Definition rising_history : list Q := [100; 100; 100; 100; 200; 200; 200; 200; 200; 200; 200].

Definition rebound_history : list Q :=
  [-100; -100; -100; -100; -100; -100; -100; 100; 100; 100; 100; 100; 100; 100].

(** The units that returned a dictionary, and those that raised. *)
Definition returned (results : list (res ActionResult.t)) : list ActionResult.t :=
  flat_map (fun r => match r with Ok a => [a] | Raise _ => [] end) results.

Definition raised (results : list (res ActionResult.t)) : list exn :=
  flat_map (fun r => match r with Ok _ => [] | Raise e => [e] end) results.

Definition has_status (s : string) (r : ActionResult.t) : bool :=
  opt_string_eqb (ActionResult.status r) s.

Definition sum_amount (field : ActionResult.t -> option Q) (l : list ActionResult.t) : Q :=
  fold_right (fun r acc => dict_get (field r) 0 + acc) 0 l.

(** A dictionary that is not a success carries no money. *)
Definition idle_unless_success (r : ActionResult.t) : Prop :=
  has_status "success" r = true \/
  (ActionResult.investment r = Some 0 /\ ActionResult.expected_return r = Some 0).

(** A candidate whose plan is the given list of actions. *)
Definition candidate_with (actions : list Action.t) : Candidate.t :=
  Candidate.mk (strong_product 750) plain_metrics 1
               (Strategy.mk actions (Some []) "immediate" (Some 0) (Some "medium"%string))
               0.

Definition content_variation_action : Action.t :=
  Action.mk (Some "content_variation"%string) (Some (18 # 10)) (Some 100) (Some 200).

(** A pricing call that is still running after 1000 seconds, the other
    calls taking the 0.1 second of the source. *)
Definition slow_pricing (_ : Product.t) (action : Action.t) : Q :=
  if opt_string_eqb (Action.type action) "price_optimization" then 1000 else 1 # 10.

Definition two_unit_batch : list Candidate.t :=
  [candidate_with [ad_spend_action (create_scaling_engine 0) 750;
                   price_action (create_scaling_engine 0) 750]].

Definition known_kind (kind : string) : bool :=
  String.eqb kind "ad_spend_increase" || String.eqb kind "audience_expansion" ||
  String.eqb kind "platform_expansion" || String.eqb kind "price_optimization".

(** ** The scaling cycle *)

Module Cycle.
Record t : Type := mk {
  status : string;
  message : string;
  scaling_candidates : Z;
  execution_results : option Report.t;
  performance_metrics : option Perf.t;
  execution_time : Q
}.
End Cycle.

(** [str(n)] of an integer, as an f-string prints it. *)
Definition py_str (n : Z) : string := NilZero.string_of_int (Z.to_int n).

(** [get_performance_metrics]: a copy of the counters. *)
Definition get_performance_metrics (self : Engine) : Perf.t := performance_metrics self.

(** [run_scaling_cycle], started at [now].  The scorer awaits nothing, so
    the time of the cycle is the time of the executor; both steps catch
    their own exceptions, so the status 'error' of the outer [except]
    branch is not reachable. *)
Definition run_scaling_cycle (api_delay : Product.t -> Action.t -> Q) (self : Engine)
           (now : Q) (products : list Product.t) : Cycle.t * Engine :=
  let candidates := analyze_scaling_opportunities self products in
  match candidates with
  | [] =>
      (Cycle.mk "no_opportunities" "No scaling opportunities found meeting criteria"
                0 None None 0,
       self)
  | _ :: _ =>
      let (results, self') := execute_scaling_actions api_delay self now candidates in
      (Cycle.mk "success"
                ("Scaling cycle completed with "
                 ++ py_str (Report.executed_actions results) ++ " actions")
                (Z.of_nat (length candidates))
                (Some results)
                (Some (get_performance_metrics self'))
                (Report.execution_time results),
       self')
  end.

(** ** Vocabulary of the further properties *)

(** Every action of every candidate, in task order. *)
Definition planned_actions (candidates : list Candidate.t) : list Action.t :=
  flat_map (fun c => Strategy.actions (Candidate.scaling_strategy c)) candidates.

(** The length of the history of a product, 0 when there is none. *)
Definition history_length (product : Product.t) : nat :=
  length (dict_get (Product.historical_data product) []).

(** One metrics dictionary is below another: no lower acquisition cost
    aside, every metric that enters the score is at most the other's. *)
Definition metrics_le (m1 m2 : Metrics.t) : Prop :=
  dict_get (Metrics.current_revenue m1) 0 <= dict_get (Metrics.current_revenue m2) 0 /\
  dict_get (Metrics.growth_rate m1) 0 <= dict_get (Metrics.growth_rate m2) 0 /\
  dict_get (Metrics.conversion_rate m1) 0 <= dict_get (Metrics.conversion_rate m2) 0 /\
  dict_get (Metrics.profit_margin m1) 0 <= dict_get (Metrics.profit_margin m2) 0 /\
  dict_get (Metrics.lifetime_value m1) 0 <= dict_get (Metrics.lifetime_value m2) 0 /\
  Metrics.customer_acquisition_cost m1 = Metrics.customer_acquisition_cost m2.

(** The weighted total of [_calculate_opportunity_score] before the
    final clamp, as a closed expression. *)
Definition weighted_total (self : Engine) (metrics : Metrics.t) : Q :=
  let cac := dict_get (Metrics.customer_acquisition_cost metrics) 1 in
  Qmin (dict_get (Metrics.current_revenue metrics) 0
        / revenue_threshold (scaling_thresholds self)) 1 * (3 # 10) +
  Qmin (dict_get (Metrics.growth_rate metrics) 0 / 100) 1 * (25 # 100) +
  Qmin (dict_get (Metrics.conversion_rate metrics) 0 / 10) 1 * (2 # 10) +
  Qmin (dict_get (Metrics.profit_margin metrics) 0) 1 * (15 # 100) +
  (if Qlt_bool 0 cac
   then Qmin (dict_get (Metrics.lifetime_value metrics) 0 / cac / 5) 1
   else 0) * (1 # 10).

(** The (product, action) pairs of a batch, one per task, in task order. *)
Definition units (candidates : list Candidate.t) : list (Product.t * Action.t) :=
  flat_map
    (fun c => map (pair (Candidate.product c))
                  (Strategy.actions (Candidate.scaling_strategy c)))
    candidates.

(** The action has no 'type' key. *)
Definition lacks_type (action : Action.t) : bool :=
  match Action.type action with
  | Some _ => false
  | None => true
  end.

(** The action has a known kind, a budget and an expected increase. *)
Definition complete_action (action : Action.t) : bool :=
  match Action.type action, Action.budget action, Action.expected_increase action with
  | Some kind, Some _, Some _ => known_kind kind
  | _, _, _ => false
  end.

(** The product with another history. *)
Definition with_history (product : Product.t) (h : list Q) : Product.t :=
  Product.mk (Product.name product) (Product.daily_revenue product) (Some h)
             (Product.conversion_rate product) (Product.traffic_volume product)
             (Product.profit_margin product) (Product.cac product) (Product.ltv product).

(** The strategy with another risk level. *)
Definition with_risk (strategy : Strategy.t) (risk : string) : Strategy.t :=
  Strategy.mk (Strategy.actions strategy) (Strategy.budget_allocation strategy)
              (Strategy.timeline strategy) (Strategy.expected_roi strategy) (Some risk).

(** * Properties *)

(** ** Comparisons, division and clamping *)

Lemma Qlt_bool_iff (a b : Q) : Qlt_bool a b = true <-> a < b.
Proof.
  unfold Qlt_bool. rewrite negb_true_iff. split; intro H.
  - apply Qnot_le_lt. intro Hle. apply Qle_bool_iff in Hle. congruence.
  - destruct (Qle_bool b a) eqn:E; [|reflexivity].
    apply Qle_bool_iff in E. exfalso. apply (Qlt_not_le _ _ H E).
Qed.

Lemma Qlt_bool_false_iff (a b : Q) : Qlt_bool a b = false <-> b <= a.
Proof.
  unfold Qlt_bool. rewrite negb_false_iff. apply Qle_bool_iff.
Qed.

Lemma Qle_bool_false_iff (a b : Q) : Qle_bool a b = false <-> b < a.
Proof.
  rewrite <- Qlt_bool_iff. unfold Qlt_bool.
  destruct (Qle_bool a b); simpl; intuition congruence.
Qed.

Lemma py_div_ok (a b : Q) : ~ b == 0 -> py_div a b = Ok (a / b).
Proof.
  intro H. unfold py_div. destruct (Qeq_bool b 0) eqn:E; [|reflexivity].
  apply Qeq_bool_eq in E. contradiction.
Qed.

Lemma py_div_zero (a b : Q) : b == 0 -> py_div a b = Raise ZeroDivisionError.
Proof.
  intro H. unfold py_div. now rewrite (Qeq_eq_bool _ _ H).
Qed.

Lemma py_div_cases (a b : Q) :
  py_div a b = Ok (a / b) \/ py_div a b = Raise ZeroDivisionError.
Proof.
  unfold py_div. destruct (Qeq_bool b 0); auto.
Qed.

Lemma clamp_range (lo hi x : Q) :
  lo <= hi -> lo <= Qmax lo (Qmin hi x) <= hi.
Proof.
  intro H. split.
  - apply Q.le_max_l.
  - apply Q.max_lub; [exact H | apply Q.le_min_l].
Qed.

Lemma clamp_mono (lo hi x y : Q) :
  x <= y -> Qmax lo (Qmin hi x) <= Qmax lo (Qmin hi y).
Proof.
  intro H. apply Q.max_le_compat_l, Q.min_le_compat_l, H.
Qed.

(** Case analysis on the next division of the goal or of a hypothesis. *)
Ltac split_div :=
  match goal with
  | |- context [py_div ?a ?b] =>
      let E := fresh "E" in
      destruct (py_div_cases a b) as [E | E]; rewrite E in *; clear E;
      cbn [bind try_except] in *
  | H : context [py_div ?a ?b] |- _ =>
      let E := fresh "E" in
      destruct (py_div_cases a b) as [E | E]; rewrite E in *; clear E;
      cbn [bind try_except] in *
  end.

(** ** The score and the ROI stay in their ranges *)

Lemma opportunity_score_body_clamped (self : Engine) (metrics : Metrics.t) (s : Q) :
  opportunity_score_body self metrics = Ok s ->
  exists total_score, s = Qmax 0 (Qmin 1 total_score).
Proof.
  unfold opportunity_score_body, efficiency. intro H.
  repeat split_div; try discriminate;
    destruct (Qlt_bool 0 _); repeat split_div; try discriminate;
    injection H as <-; eexists; reflexivity.
Qed.

Lemma opportunity_score_range (self : Engine) (metrics : Metrics.t) :
  0 <= _calculate_opportunity_score self metrics <= 1.
Proof.
  unfold _calculate_opportunity_score.
  destruct (opportunity_score_body self metrics) as [s|e] eqn:E; simpl.
  - destruct (opportunity_score_body_clamped _ _ _ E) as [t ->].
    apply clamp_range. lra.
  - lra.
Qed.

Lemma estimate_roi_range (metrics : Metrics.t) (strategy : Strategy.t) :
  0 <= _estimate_roi metrics strategy <= 500.
Proof.
  unfold _estimate_roi. apply clamp_range. lra.
Qed.

(** A zero revenue threshold raises [ZeroDivisionError] inside the [try]
    block, and the score is the 0.0 of the [except] branch. *)
Lemma zero_threshold_score (self : Engine) (metrics : Metrics.t) :
  revenue_threshold (scaling_thresholds self) == 0 ->
  _calculate_opportunity_score self metrics = 0.
Proof.
  intro H. unfold _calculate_opportunity_score, opportunity_score_body.
  now rewrite (py_div_zero _ _ H).
Qed.

(** ** The generated strategy *)

Lemma sum_items_total (key : string) (field : Action.t -> option Q)
      (actions : list Action.t) :
  Forall (fun action => field action <> None) actions ->
  forall acc, sum_items key field actions acc = Ok (total_of field actions acc).
Proof.
  induction 1 as [|action rest Hsome _ IH]; intro acc; simpl.
  - reflexivity.
  - destruct (field action) as [v|]; [|congruence]. simpl. apply IH.
Qed.

Lemma strategy_actions_keys (self : Engine) (metrics : Metrics.t) :
  Forall (fun action => Action.budget action <> None) (strategy_actions self metrics) /\
  Forall (fun action => Action.expected_increase action <> None)
         (strategy_actions self metrics).
Proof.
  unfold strategy_actions.
  destruct (Qle_bool _ _), (Qlt_bool _ _), (Qlt_bool _ _); simpl;
    split; repeat constructor; discriminate.
Qed.

(** The [except] branch of [_generate_scaling_strategy] is never taken:
    the actions it sums were just built with every key. *)
Lemma generate_scaling_strategy_eq (self : Engine) (product : Product.t)
      (metrics : Metrics.t) :
  _generate_scaling_strategy self product metrics =
  Strategy.mk (strategy_actions self metrics) (Some []) "immediate"
              (Some (plan_roi (strategy_actions self metrics)))
              (Some "medium"%string).
Proof.
  unfold _generate_scaling_strategy, scaling_strategy_body, plan_roi.
  destruct (strategy_actions_keys self metrics) as [Hb He].
  rewrite (sum_items_total _ _ _ Hb), (sum_items_total _ _ _ He).
  cbn [bind].
  destruct (Qlt_bool 0 _) eqn:E; cbn [bind try_except].
  - apply Qlt_bool_iff in E. rewrite py_div_ok; [reflexivity|].
    intro H. rewrite H in E. apply (Qlt_irrefl _ E).
  - reflexivity.
Qed.

Lemma estimate_roi_zero_base (metrics : Metrics.t) (strategy : Strategy.t) :
  dict_get (Strategy.expected_roi strategy) 0 == 0 ->
  _estimate_roi metrics strategy == 0.
Proof.
  intro H. unfold _estimate_roi.
  set (risk := if opt_string_eqb _ "high" then _ else _).
  assert (Hz : forall b, b == 0 -> Qmax 0 (Qmin 500 (b * risk)) == 0).
  { intros b Hb. rewrite Hb. rewrite Q.min_r by lra. rewrite Q.max_l by lra.
    reflexivity. }
  destruct (Qlt_bool 50 _), (Qlt_bool 5 _); apply Hz; rewrite H; lra.
Qed.

(** C5.  Whatever the metrics and the strategy, the opportunity score is
    within [0, 1] and the estimated ROI within [0, 500]; both functions
    are total, so no exception leaves them.  The degenerate denominators
    give the defaults of the code: a zero revenue threshold gives the
    score 0 of the handler, a customer acquisition cost that is zero or
    negative gives the efficiency score 0, and a plan whose total budget
    is zero or negative gives the expected ROI 0 and the estimate 0. *)
Theorem score_and_roi_clamped :
  forall (self : Engine) (product : Product.t) (metrics : Metrics.t)
         (strategy : Strategy.t) (ltv cac : Q),
    0 <= _calculate_opportunity_score self metrics <= 1 /\
    0 <= _estimate_roi metrics strategy <= 500 /\
    (revenue_threshold (scaling_thresholds self) == 0 ->
     _calculate_opportunity_score self metrics = 0) /\
    (cac <= 0 -> efficiency ltv cac = Ok 0) /\
    (total_of Action.budget (strategy_actions self metrics) 0 <= 0 ->
     Strategy.expected_roi (_generate_scaling_strategy self product metrics) = Some 0 /\
     _estimate_roi metrics (_generate_scaling_strategy self product metrics) == 0).
Proof.
  intros self product metrics strategy ltv cac.
  split; [apply opportunity_score_range|].
  split; [apply estimate_roi_range|].
  split; [apply zero_threshold_score|].
  split.
  - intro H. unfold efficiency.
    apply Qlt_bool_false_iff in H. now rewrite H.
  - intro H.
    assert (E : Strategy.expected_roi (_generate_scaling_strategy self product metrics)
                = Some 0).
    { rewrite generate_scaling_strategy_eq. cbn [Strategy.expected_roi].
      unfold plan_roi. apply Qlt_bool_false_iff in H. now rewrite H. }
    split; [exact E|].
    apply estimate_roi_zero_base. rewrite E. reflexivity.
Qed.

Lemma score_and_roi_clamped_witness :
  _calculate_opportunity_score degenerate_engine fallback_metrics = 0 /\
  efficiency 200 0 = Ok 0 /\
  Strategy.expected_roi
    (_generate_scaling_strategy degenerate_engine no_product fallback_metrics) = Some 0 /\
  _estimate_roi fallback_metrics
    (_generate_scaling_strategy degenerate_engine no_product fallback_metrics) == 0.
Proof.
  destruct (score_and_roi_clamped degenerate_engine no_product fallback_metrics
                                  fallback_strategy 200 0)
    as (_ & _ & Hscore & Heff & Hroi).
  split; [apply Hscore; reflexivity|].
  split; [apply Heff; apply Qle_refl|].
  apply Hroi. vm_compute. discriminate.
Defined.

(** ** The boosts of the ROI estimate are monotone *)

Lemma risk_adjustment_nonneg (strategy : Strategy.t) :
  0 <= (if opt_string_eqb (Strategy.risk_level strategy) "high" then 8 # 10
        else if opt_string_eqb (Strategy.risk_level strategy) "low" then 11 # 10
        else 1).
Proof.
  destruct (opt_string_eqb _ "high"); [lra|].
  destruct (opt_string_eqb _ "low"); lra.
Qed.

(** C7.  For a strategy whose base ROI is not negative, the estimate for
    metrics with growth_rate > 50 and conversion_rate > 5 is at least the
    estimate for metrics with neither, the strategy (base ROI and risk
    level) being the same. *)
Theorem boosted_roi_ge_unboosted :
  forall (strategy : Strategy.t) (boosted plain : Metrics.t),
    0 <= dict_get (Strategy.expected_roi strategy) 0 ->
    50 < dict_get (Metrics.growth_rate boosted) 0 ->
    5 < dict_get (Metrics.conversion_rate boosted) 0 ->
    dict_get (Metrics.growth_rate plain) 0 <= 50 ->
    dict_get (Metrics.conversion_rate plain) 0 <= 5 ->
    _estimate_roi plain strategy <= _estimate_roi boosted strategy.
Proof.
  intros strategy boosted plain Hbase Hg Hc Hg' Hc'.
  unfold _estimate_roi.
  apply Qlt_bool_iff in Hg, Hc. apply Qlt_bool_false_iff in Hg', Hc'.
  rewrite Hg, Hc, Hg', Hc'.
  apply clamp_mono.
  pose proof (risk_adjustment_nonneg strategy) as Hrisk.
  set (risk := if opt_string_eqb _ "high" then _ else _) in *.
  set (base := dict_get _ 0) in *.
  apply Qmult_le_compat_r; [|exact Hrisk].
  lra.
Qed.

Lemma boosted_roi_ge_unboosted_witness :
  _estimate_roi plain_metrics medium_strategy
  <= _estimate_roi boosted_metrics medium_strategy.
Proof.
  apply boosted_roi_ge_unboosted; vm_compute; discriminate || reflexivity.
Defined.

(** ** The strategy of the two sample revenues *)

(** The source's default engine proposes, for a revenue [revenue] of at
    least 500 and at most 3333, the ad-spend action first and the price
    optimization last. *)
Lemma default_strategy_shape (now revenue : Q) (product : Product.t)
      (g c t pm cac ltv : option Q) :
  500 <= revenue ->
  exists middle,
    Strategy.actions
      (_generate_scaling_strategy (create_scaling_engine now) product
         (Metrics.mk (Some revenue) g c t pm cac ltv))
    = ad_spend_action (create_scaling_engine now) revenue
        :: middle ++ [price_action (create_scaling_engine now) revenue].
Proof.
  intro H. rewrite generate_scaling_strategy_eq. cbn [Strategy.actions].
  unfold strategy_actions.
  cbn [dict_get Metrics.current_revenue scaling_thresholds create_scaling_engine
       revenue_threshold default_thresholds].
  apply Qle_bool_iff in H. rewrite H.
  eexists. cbn [app]. f_equal. rewrite app_assoc. reflexivity.
Qed.

(** C9.  Under the default configuration (revenue threshold 500, maximum
    ad spend 1000) the strategy generated for a current revenue of 750
    starts with an ad-spend action of budget 225 and expected return 375,
    the one for 1200 with an ad-spend action of budget 360 and expected
    return 600, and both end with the price-optimization action. *)
Theorem sample_strategies :
  forall (now : Q) (product : Product.t) (g c t pm cac ltv : option Q),
    let self := create_scaling_engine now in
    let strategy (revenue : Q) :=
      _generate_scaling_strategy self product
        (Metrics.mk (Some revenue) g c t pm cac ltv) in
    (exists ad middle price,
        Strategy.actions (strategy 750) = ad :: middle ++ [price] /\
        Action.type ad = Some "ad_spend_increase"%string /\
        amount_is (Action.budget ad) 225 /\
        amount_is (Action.budget ad) (750 * (3 # 10)) /\
        amount_is (Action.expected_increase ad) 375 /\
        Action.type price = Some "price_optimization"%string) /\
    (exists ad middle price,
        Strategy.actions (strategy 1200) = ad :: middle ++ [price] /\
        Action.type ad = Some "ad_spend_increase"%string /\
        amount_is (Action.budget ad) 360 /\
        amount_is (Action.budget ad) (1200 * (3 # 10)) /\
        amount_is (Action.expected_increase ad) 600 /\
        Action.type price = Some "price_optimization"%string).
Proof.
  intros now product g c t pm cac ltv self strategy. subst strategy.
  split.
  - destruct (default_strategy_shape now 750 product g c t pm cac ltv) as [middle E];
      [vm_compute; discriminate|].
    exists (ad_spend_action self 750), middle, (price_action self 750).
    split; [exact E|]. repeat split; vm_compute; reflexivity.
  - destruct (default_strategy_shape now 1200 product g c t pm cac ltv) as [middle E];
      [vm_compute; discriminate|].
    exists (ad_spend_action self 1200), middle, (price_action self 1200).
    split; [exact E|]. repeat split; vm_compute; reflexivity.
Qed.

(** ** Ranking *)

Lemma in_firstn {A : Type} (k : nat) (l : list A) (a : A) :
  In a (firstn k l) -> In a l.
Proof.
  intro H. rewrite <- (firstn_skipn k l). apply in_or_app. now left.
Qed.

Lemma in_skipn {A : Type} (k : nat) (l : list A) (a : A) :
  In a (skipn k l) -> In a l.
Proof.
  intro H. rewrite <- (firstn_skipn k l). apply in_or_app. now right.
Qed.

Section SortFacts.
Context {A : Type} (key : A -> Q).

Lemma insert_desc_perm (x : A) (l : list A) :
  Permutation (insert_desc key x l) (x :: l).
Proof.
  induction l as [|y l IH]; simpl.
  - apply Permutation_refl.
  - destruct (Qle_bool (key y) (key x)).
    + apply Permutation_refl.
    + eapply perm_trans; [apply perm_skip, IH | apply perm_swap].
Qed.

Lemma sort_reverse_perm (l : list A) : Permutation (sort_reverse key l) l.
Proof.
  induction l as [|x l IH]; simpl.
  - apply perm_nil.
  - eapply perm_trans; [apply insert_desc_perm | apply perm_skip, IH].
Qed.

Lemma insert_desc_sorted (x : A) (l : list A) :
  StronglySorted (desc key) l -> StronglySorted (desc key) (insert_desc key x l).
Proof.
  induction 1 as [|y l Hs IH Hy]; simpl.
  - repeat constructor.
  - destruct (Qle_bool (key y) (key x)) eqn:E.
    + apply Qle_bool_iff in E.
      constructor; [constructor; assumption|].
      constructor; [exact E|].
      eapply Forall_impl; [|exact Hy].
      intros z Hz. unfold desc in *. eapply Qle_trans; eassumption.
    + apply Qle_bool_false_iff in E.
      constructor; [exact IH|].
      eapply Permutation_Forall; [apply Permutation_sym, insert_desc_perm|].
      constructor; [apply Qlt_le_weak, E | exact Hy].
Qed.

Lemma sort_reverse_sorted (l : list A) : StronglySorted (desc key) (sort_reverse key l).
Proof.
  induction l as [|x l IH]; simpl.
  - constructor.
  - apply insert_desc_sorted, IH.
Qed.

(** The first [k] elements of a descending list dominate the others. *)
Lemma sorted_firstn_skipn (k : nat) (l : list A) :
  StronglySorted (desc key) l ->
  StronglySorted (desc key) (firstn k l) /\
  forall a b, In a (firstn k l) -> In b (skipn k l) -> key b <= key a.
Proof.
  intro Hs. revert k. induction Hs as [|x l Hs IH Hx]; intro k.
  - rewrite firstn_nil, skipn_nil. split; [constructor | intros a b []].
  - destruct k as [|k]; simpl.
    + split; [constructor | intros a b []].
    + destruct (IH k) as [IHs IHd]. split.
      * constructor; [exact IHs|].
        rewrite Forall_forall in *. intros z Hz. apply Hx.
        exact (in_firstn _ _ _ Hz).
      * intros a b [<- | Ha] Hb.
        -- rewrite Forall_forall in Hx. apply Hx.
           exact (in_skipn _ _ _ Hb).
        -- apply IHd; assumption.
Qed.
End SortFacts.

(** ** What the scorer returns *)

Lemma scaling_candidates_filter (self : Engine) (products : list Product.t) :
  scaling_candidates self products =
  map (make_candidate self) (filter (qualifies self) products).
Proof.
  induction products as [|p ps IH]; simpl.
  - reflexivity.
  - unfold qualifies at 1. destruct (Qle_bool _ _); simpl; now rewrite IH.
Qed.

Lemma slice_to_firstn {A : Type} (k : Z) (l : list A) :
  (0 <= k)%Z -> py_slice None (Some k) l = firstn (Z.to_nat k) l.
Proof.
  intro H. unfold py_slice, slice_bound.
  destruct (k <? 0)%Z eqn:E; [apply Z.ltb_lt in E; lia|].
  rewrite Nat.sub_0_r. cbn [skipn].
  destruct (Nat.le_ge_cases (Z.to_nat k) (length l)) as [Hle | Hge].
  - now rewrite Nat.min_l.
  - rewrite Nat.min_r by exact Hge. rewrite firstn_all.
    symmetry. now apply firstn_all2.
Qed.

Lemma slice_incl {A : Type} (lo hi : option Z) (l : list A) (a : A) :
  In a (py_slice lo hi l) -> In a l.
Proof.
  unfold py_slice. intro H. eapply in_skipn, in_firstn, H.
Qed.

Lemma analyze_incl (self : Engine) (products : list Product.t) (c : Candidate.t) :
  In c (analyze_scaling_opportunities self products) ->
  exists product,
    In product products /\ qualifies self product = true /\
    c = make_candidate self product.
Proof.
  unfold analyze_scaling_opportunities. intro H.
  apply slice_incl in H.
  apply (Permutation_in _ (sort_reverse_perm rank_key _)) in H.
  rewrite scaling_candidates_filter in H.
  apply in_map_iff in H. destruct H as (p & <- & Hp).
  apply filter_In in Hp. destruct Hp as [Hin Hq].
  exists p. auto.
Qed.

(** C10.  Every candidate that the scorer returns has an opportunity
    score of at least 0.8, whatever the concurrency cap of the engine. *)
Theorem returned_score_at_least_threshold :
  forall (self : Engine) (products : list Product.t) (c : Candidate.t),
    In c (analyze_scaling_opportunities self products) ->
    8 # 10 <= Candidate.opportunity_score c.
Proof.
  intros self products c H.
  destruct (analyze_incl _ _ _ H) as (p & _ & Hq & ->).
  apply Qle_bool_iff in Hq. exact Hq.
Qed.

Lemma returned_score_at_least_threshold_witness :
  8 # 10 <= Candidate.opportunity_score
              (make_candidate (create_scaling_engine 0) (strong_product 1000)).
Proof.
  apply (returned_score_at_least_threshold (create_scaling_engine 0)
                                           [strong_product 1000]).
  vm_compute. left. reflexivity.
Defined.

(** C4 as stated fails: with the two sample products of the source and a
    cap of 1 (so K = 1 < N = 2), neither product reaches the 0.8 threshold
    and the scorer returns no candidate instead of one. *)
Lemma exactly_k_fails :
  (max_concurrent_scales (scaling_thresholds (engine_with_cap 1))
   < Z.of_nat (length sample_products))%Z /\
  length (analyze_scaling_opportunities (engine_with_cap 1) sample_products)
  <> Z.to_nat (max_concurrent_scales (scaling_thresholds (engine_with_cap 1))).
Proof.
  split; vm_compute; [reflexivity | discriminate].
Qed.

(** C4, amended.  With a cap K >= 0 the scorer returns min(K, Q)
    candidates, Q being the number of products whose score reaches 0.8;
    they are in descending order of score times estimated ROI, they are
    candidates built from such products, and each of them has a product
    at least as high as every such candidate left out.  An empty input
    gives an empty result. *)
Theorem top_k_of_qualifying :
  forall (self : Engine) (products : list Product.t),
    let K := max_concurrent_scales (scaling_thresholds self) in
    let qualifying := filter (qualifies self) products in
    let ranked := analyze_scaling_opportunities self products in
    (0 <= K)%Z ->
    length ranked = Nat.min (Z.to_nat K) (length qualifying) /\
    StronglySorted (fun a b => rank_key b <= rank_key a) ranked /\
    (exists rest,
        Permutation (ranked ++ rest) (map (make_candidate self) qualifying) /\
        forall a b, In a ranked -> In b rest -> rank_key b <= rank_key a) /\
    analyze_scaling_opportunities self [] = [].
Proof.
  intros self products K qualifying ranked HK.
  subst ranked. unfold analyze_scaling_opportunities. fold K.
  rewrite slice_to_firstn by exact HK.
  rewrite scaling_candidates_filter. fold qualifying.
  set (sorted := sort_reverse rank_key (map (make_candidate self) qualifying)).
  assert (Hperm : Permutation sorted (map (make_candidate self) qualifying))
    by apply sort_reverse_perm.
  destruct (sorted_firstn_skipn rank_key (Z.to_nat K) sorted
              (sort_reverse_sorted rank_key _)) as [Hs Hd].
  split.
  - rewrite length_firstn, (Permutation_length Hperm), length_map. reflexivity.
  - split; [exact Hs|]. split.
    + exists (skipn (Z.to_nat K) sorted). split; [|exact Hd].
      now rewrite firstn_skipn.
    + cbn [scaling_candidates sort_reverse fold_right]. apply firstn_nil.
Qed.

Lemma top_k_of_qualifying_witness :
  length (analyze_scaling_opportunities
            (engine_with_cap 1) [strong_product 1000; strong_product 2000])
  = 1%nat.
Proof.
  destruct (top_k_of_qualifying (engine_with_cap 1)
                                [strong_product 1000; strong_product 2000])
    as [Hlen _].
  - vm_compute. discriminate.
  - exact Hlen.
Defined.

(** ** The scorer depends on the configuration only *)

Lemma score_depends_on_thresholds (e1 e2 : Engine) (metrics : Metrics.t) :
  scaling_thresholds e1 = scaling_thresholds e2 ->
  _calculate_opportunity_score e1 metrics = _calculate_opportunity_score e2 metrics.
Proof.
  intro H. unfold _calculate_opportunity_score, opportunity_score_body.
  now rewrite H.
Qed.

Lemma strategy_depends_on_configuration (e1 e2 : Engine) (product : Product.t)
      (metrics : Metrics.t) :
  config e1 = config e2 ->
  scaling_thresholds e1 = scaling_thresholds e2 ->
  scaling_multipliers e1 = scaling_multipliers e2 ->
  _generate_scaling_strategy e1 product metrics =
  _generate_scaling_strategy e2 product metrics.
Proof.
  intros Hc Ht Hm.
  unfold _generate_scaling_strategy, scaling_strategy_body, strategy_actions,
    ad_spend_action, audience_action, platform_action, price_action.
  now rewrite Hc, Ht, Hm.
Qed.

Lemma analyze_depends_on_configuration (e1 e2 : Engine) (products : list Product.t) :
  config e1 = config e2 ->
  scaling_thresholds e1 = scaling_thresholds e2 ->
  scaling_multipliers e1 = scaling_multipliers e2 ->
  analyze_scaling_opportunities e1 products = analyze_scaling_opportunities e2 products.
Proof.
  intros Hc Ht Hm. unfold analyze_scaling_opportunities.
  rewrite Ht. f_equal. f_equal.
  induction products as [|p ps IH]; simpl; [reflexivity|].
  rewrite (score_depends_on_thresholds e1 e2 _ Ht), IH.
  unfold make_candidate.
  rewrite (score_depends_on_thresholds e1 e2 _ Ht),
    (strategy_depends_on_configuration e1 e2 _ _ Hc Ht Hm).
  reflexivity.
Qed.

Lemma execute_keeps_configuration (api_delay : Product.t -> Action.t -> Q)
      (self : Engine) (now : Q) (candidates : list Candidate.t) :
  let self' := snd (execute_scaling_actions api_delay self now candidates) in
  config self' = config self /\
  scaling_thresholds self' = scaling_thresholds self /\
  scaling_multipliers self' = scaling_multipliers self.
Proof.
  unfold execute_scaling_actions, execute_body.
  destruct (0 <? _)%nat; cbn [bind]; [split_div|]; cbn; auto.
Qed.

(** C6.  The ranking is a function of the product list and of the
    configuration (config, thresholds, multipliers) alone: two engines
    that agree on these return the same candidates, with the same scores
    and ROI values, in the same order, whatever their performance
    counters; in particular a second call gives the result of the first
    even when the executor, which updates the counters, ran in between.
    The scorer itself returns no new engine state: the source method
    assigns to no attribute. *)
Theorem ranking_is_deterministic :
  forall (e1 e2 : Engine) (products : list Product.t)
         (api_delay : Product.t -> Action.t -> Q) (now : Q)
         (executed : list Candidate.t),
    config e1 = config e2 ->
    scaling_thresholds e1 = scaling_thresholds e2 ->
    scaling_multipliers e1 = scaling_multipliers e2 ->
    analyze_scaling_opportunities e1 products
    = analyze_scaling_opportunities e2 products /\
    analyze_scaling_opportunities
      (snd (execute_scaling_actions api_delay e1 now executed)) products
    = analyze_scaling_opportunities e2 products.
Proof.
  intros e1 e2 products api_delay now executed Hc Ht Hm.
  split; [now apply analyze_depends_on_configuration|].
  destruct (execute_keeps_configuration api_delay e1 now executed) as (Hc' & Ht' & Hm').
  apply analyze_depends_on_configuration; congruence.
Qed.

Lemma ranking_is_deterministic_witness :
  analyze_scaling_opportunities (create_scaling_engine 0) [strong_product 1000]
  = analyze_scaling_opportunities (create_scaling_engine 86400) [strong_product 1000] /\
  analyze_scaling_opportunities
    (snd (execute_scaling_actions simulated_delay (create_scaling_engine 0) 0
            (analyze_scaling_opportunities (create_scaling_engine 0)
                                           [strong_product 1000])))
    [strong_product 1000]
  = analyze_scaling_opportunities (create_scaling_engine 86400) [strong_product 1000].
Proof.
  apply ranking_is_deterministic; reflexivity.
Defined.

(** ** The growth rate derived from the history *)

Lemma of_nat_nonzero (k : nat) : (0 < k)%nat -> ~ of_nat k == 0.
Proof.
  intros H E. unfold of_nat, Qeq in E. simpl in E. lia.
Qed.

Lemma recent_window_eq (h : list Q) : recent_window h = skipn (length h - 7) h.
Proof.
  unfold recent_window, py_slice, slice_bound. cbn [Z.ltb Z.compare].
  replace (Z.to_nat (Z.max 0 (-7 + Z.of_nat (length h)))) with (length h - 7)%nat by lia.
  apply firstn_all2. rewrite length_skipn. lia.
Qed.

Lemma older_window_eq (h : list Q) :
  older_window h = firstn (length h - 7 - (length h - 14)) (skipn (length h - 14) h).
Proof.
  unfold older_window, py_slice, slice_bound. cbn [Z.ltb Z.compare].
  replace (Z.to_nat (Z.max 0 (-7 + Z.of_nat (length h)))) with (length h - 7)%nat by lia.
  replace (Z.to_nat (Z.max 0 (-14 + Z.of_nat (length h)))) with (length h - 14)%nat by lia.
  reflexivity.
Qed.

Lemma older_window_length (h : list Q) :
  length (older_window h) = Nat.min 7 (length h - 7).
Proof.
  rewrite older_window_eq, length_firstn, length_skipn. lia.
Qed.

(** C3, amended.  For a history of at least 8 samples, the recent window
    is the last 7 samples, the older window the up to 7 samples before
    them, and the growth rate is (recent mean - older mean) / older mean
    * 100 when the older mean is positive and the constant 25 when it is
    zero or negative; the other metrics are the snapshot values of the
    product, or their defaults. *)
Theorem growth_rate_of_long_history :
  forall (product : Product.t) (h : list Q),
    Product.historical_data product = Some h ->
    (8 <= length h)%nat ->
    let recent := skipn (length h - 7) h in
    let older := firstn (length h - 7 - (length h - 14)) (skipn (length h - 14) h) in
    length recent = 7%nat /\
    length older = Nat.min 7 (length h - 7) /\
    (0 < mean older ->
     _calculate_product_metrics product
     = product_metrics product ((mean recent - mean older) / mean older * 100)) /\
    (mean older <= 0 ->
     _calculate_product_metrics product = product_metrics product 25).
Proof.
  intros product h Hh Hlen recent older.
  assert (Hr : length recent = 7%nat) by (subst recent; rewrite length_skipn; lia).
  assert (Ho : length older = Nat.min 7 (length h - 7))
    by (subst older; rewrite <- older_window_eq; apply older_window_length).
  split; [exact Hr|]. split; [exact Ho|].
  assert (E : product_metrics_body product =
              growth_rate <- (if Qlt_bool 0 (mean older)
                              then (r <- py_div (mean recent - mean older) (mean older) ;;
                                    Ok (r * 100))
                              else Ok 25) ;;
              Ok (product_metrics product growth_rate)).
  { unfold product_metrics_body. rewrite Hh. cbn [dict_get].
    destruct (length h <? 2)%nat eqn:E; [apply Nat.ltb_lt in E; lia|].
    rewrite recent_window_eq, older_window_eq. fold recent older.
    rewrite Nat.min_l by lia.
    rewrite py_div_ok by (apply of_nat_nonzero; lia). cbn [bind].
    rewrite py_div_ok by (apply of_nat_nonzero; rewrite Ho; lia). cbn [bind].
    unfold mean. rewrite Hr. rewrite (Nat.min_r 7 (length older)) by (rewrite Ho; lia).
    reflexivity. }
  unfold _calculate_product_metrics. rewrite E. split; intro H.
  - assert (Hb := H). apply Qlt_bool_iff in Hb. rewrite Hb. cbn [bind].
    rewrite py_div_ok; [reflexivity|].
    intro Hz. rewrite Hz in H. apply (Qlt_irrefl _ H).
  - apply Qlt_bool_false_iff in H. rewrite H. reflexivity.
Qed.

Lemma growth_rate_of_long_history_witness :
  _calculate_product_metrics (history_product 750 rising_history)
  = product_metrics (history_product 750 rising_history)
      ((mean (skipn 4 rising_history) - mean (firstn 4 rising_history))
       / mean (firstn 4 rising_history) * 100) /\
  _calculate_product_metrics (history_product 750 rebound_history)
  = product_metrics (history_product 750 rebound_history) 25.
Proof.
  split.
  - destruct (growth_rate_of_long_history (history_product 750 rising_history)
                rising_history) as (_ & _ & Hpos & _).
    + reflexivity.
    + vm_compute. lia.
    + apply Hpos. vm_compute. reflexivity.
  - destruct (growth_rate_of_long_history (history_product 750 rebound_history)
                rebound_history) as (_ & _ & _ & Hneg).
    + reflexivity.
    + vm_compute. lia.
    + apply Hneg. vm_compute. discriminate.
Defined.

(** C3 as stated fails on two inputs.  With a history of two samples the
    older window is empty, the division by its length raises
    [ZeroDivisionError], and the [except] branch answers: the snapshot
    revenue 750 becomes 0 and the growth rate is 0, neither the formula
    nor 25.  With an older mean of -100 and a recent mean of 100 the
    formula gives -200, and the code gives 25. *)
Lemma growth_rate_claim_fails :
  ((2 <= length [100; 200])%nat /\
   _calculate_product_metrics (history_product 750 [100; 200]) = fallback_metrics /\
   ~ amount_is (Metrics.current_revenue
                  (_calculate_product_metrics (history_product 750 [100; 200]))) 750 /\
   ~ amount_is (Metrics.growth_rate
                  (_calculate_product_metrics (history_product 750 [100; 200]))) 25) /\
  ((2 <= length rebound_history)%nat /\
   mean (skipn 7 rebound_history) == 100 /\
   mean (firstn 7 rebound_history) == -100 /\
   amount_is (Metrics.growth_rate
                (_calculate_product_metrics (history_product 750 rebound_history))) 25 /\
   ~ amount_is (Metrics.growth_rate
                  (_calculate_product_metrics (history_product 750 rebound_history)))
       ((100 - -100) / -100 * 100)).
Proof.
  split.
  - split; [simpl; lia|]. split; [reflexivity|].
    split; vm_compute; discriminate.
  - split; [simpl; lia|]. repeat split; vm_compute; reflexivity || discriminate.
Qed.

(** The missed case in general: with 2 to 7 samples the older window is
    empty and the metrics are those of the [except] branch. *)
Lemma short_history_falls_back (product : Product.t) (h : list Q) :
  Product.historical_data product = Some h ->
  (2 <= length h <= 7)%nat ->
  older_window h = [] /\ _calculate_product_metrics product = fallback_metrics.
Proof.
  intros Hh Hlen.
  assert (Ho : older_window h = []).
  { rewrite older_window_eq. replace (length h - 7)%nat with 0%nat by lia.
    reflexivity. }
  split; [exact Ho|].
  unfold _calculate_product_metrics, product_metrics_body.
  rewrite Hh. cbn [dict_get].
  destruct (length h <? 2)%nat eqn:E; [apply Nat.ltb_lt in E; lia|].
  rewrite py_div_ok by (apply of_nat_nonzero; lia). cbn [bind].
  rewrite Ho. reflexivity.
Qed.

(** ** The report of the executor *)

Lemma process_results_from (l : list (res ActionResult.t)) :
  forall r0 : Report.t,
    let r := fold_left process_result l r0 in
    Report.executed_actions r
    = (Report.executed_actions r0 + Z.of_nat (length (returned l)))%Z /\
    Report.failed_actions r
    = (Report.failed_actions r0 + Z.of_nat (length (raised l)))%Z /\
    Report.total_investment r
    == Report.total_investment r0 + sum_amount ActionResult.investment (returned l) /\
    Report.expected_return r
    == Report.expected_return r0 + sum_amount ActionResult.expected_return (returned l) /\
    Report.success_rate r = Report.success_rate r0.
Proof.
  induction l as [|[a|e] l IH]; intro r0; cbn zeta.
  - simpl. repeat split; try lia; lra.
  - cbn [fold_left]. destruct (IH (process_result r0 (Ok a))) as (He & Hf & Hi & Hr & Hs).
    rewrite He, Hf, Hi, Hr, Hs.
    change (returned (Ok a :: l)) with (a :: returned l).
    change (raised (Ok a :: l)) with (raised l).
    cbn [process_result Report.executed_actions Report.failed_actions
         Report.total_investment Report.expected_return Report.success_rate
         length sum_amount fold_right].
    fold (sum_amount ActionResult.investment (returned l)).
    fold (sum_amount ActionResult.expected_return (returned l)).
    rewrite Nat2Z.inj_succ. repeat split; try lia; lra.
  - cbn [fold_left]. destruct (IH (process_result r0 (Raise e))) as (He & Hf & Hi & Hr & Hs).
    rewrite He, Hf, Hi, Hr, Hs.
    change (returned (Raise e :: l)) with (returned l).
    change (raised (Raise e :: l)) with (e :: raised l).
    cbn [process_result Report.executed_actions Report.failed_actions
         Report.total_investment Report.expected_return Report.success_rate length].
    rewrite Nat2Z.inj_succ. repeat split; try lia; lra.
Qed.

Lemma sum_amount_success (field : ActionResult.t -> option Q) (l : list ActionResult.t) :
  Forall (fun r => has_status "success" r = true \/ field r = Some 0) l ->
  sum_amount field (filter (has_status "success") l) == sum_amount field l.
Proof.
  induction 1 as [|r l Hr _ IH]; simpl; [reflexivity|].
  destruct (has_status "success" r) eqn:E; simpl.
  - rewrite IH. reflexivity.
  - destruct Hr as [Hr | Hr]; [congruence|]. rewrite Hr, IH. simpl. lra.
Qed.

Section ExecutorFacts.
Variable api_delay : Product.t -> Action.t -> Q.

Lemma strict_handler_idle (kind : string) (product : Product.t) (action : Action.t) :
  idle_unless_success (snd (strict_handler api_delay kind product action)).
Proof.
  unfold strict_handler.
  destruct (Action.budget action), (Action.expected_increase action);
    cbn; [left | right ..]; auto.
Qed.

Lemma single_action_idle (product : Product.t) (action : Action.t) (r : ActionResult.t) :
  snd (_execute_single_action api_delay product action) = Ok r ->
  idle_unless_success r.
Proof.
  unfold _execute_single_action.
  destruct (Action.type action) as [k|]; cbn [dict_item]; [|discriminate].
  repeat (destruct (String.eqb k _));
    cbn [snd fst]; intro H; injection H as <-;
    try apply strict_handler_idle.
  - unfold _optimize_pricing.
    destruct (Action.expected_increase action); cbn; [left | right]; auto.
  - right. auto.
Qed.

Lemma create_tasks_idle (candidates : list Candidate.t) :
  Forall idle_unless_success (returned (map snd (create_tasks api_delay candidates))).
Proof.
  apply Forall_forall. intros r Hr.
  unfold returned in Hr. apply in_flat_map in Hr. destruct Hr as (o & Ho & Hr).
  destruct o as [a|e]; [|destruct Hr].
  destruct Hr as [<- | []].
  apply in_map_iff in Ho. destruct Ho as (t & Ht & Hin).
  unfold create_tasks in Hin. apply in_flat_map in Hin.
  destruct Hin as (c & _ & Hin). apply in_map_iff in Hin.
  destruct Hin as (action & <- & _).
  eapply single_action_idle, Ht.
Qed.
End ExecutorFacts.

Lemma returned_repeat_timeout (n : nat) :
  returned (repeat (Ok timeout_result) n) = repeat timeout_result n.
Proof.
  induction n as [|n IH]; simpl; [reflexivity | now rewrite IH].
Qed.

Lemma raised_repeat_timeout (n : nat) : raised (repeat (Ok timeout_result) n) = [].
Proof.
  induction n as [|n IH]; simpl; [reflexivity | exact IH].
Qed.

Lemma action_results_idle (api_delay : Product.t -> Action.t -> Q)
      (candidates : list Candidate.t) :
  Forall idle_unless_success
         (returned (action_results (create_tasks api_delay candidates))).
Proof.
  unfold action_results, wait_for_gather. destruct (forallb _ _).
  - apply create_tasks_idle.
  - rewrite returned_repeat_timeout. apply Forall_forall. intros r Hr.
    apply repeat_spec in Hr. subst r. right. auto.
Qed.

Lemma action_results_length (tasks : list (timed (res ActionResult.t))) :
  length (action_results tasks) = length tasks.
Proof.
  unfold action_results, wait_for_gather. destruct (forallb _ _).
  - apply length_map.
  - apply repeat_length.
Qed.

(** The report of [execute_scaling_actions], field by field: the [except]
    branch is not reachable, the only division being guarded. *)
Lemma execute_report (api_delay : Product.t -> Action.t -> Q) (self : Engine) (now : Q)
      (candidates : list Candidate.t) :
  let tasks := create_tasks api_delay candidates in
  let results := action_results tasks in
  let report := fst (execute_scaling_actions api_delay self now candidates) in
  Report.executed_actions report = Z.of_nat (length (returned results)) /\
  Report.failed_actions report = Z.of_nat (length (raised results)) /\
  Report.total_investment report == sum_amount ActionResult.investment (returned results) /\
  Report.expected_return report
  == sum_amount ActionResult.expected_return (returned results) /\
  Report.success_rate report
  = (if (0 <? length results)%nat
     then inject_Z (Z.of_nat (length (returned results))) / of_nat (length results) * 100
     else 0) /\
  Report.execution_time report = elapsed tasks.
Proof.
  intros tasks results report.
  destruct (process_results_from results empty_report) as (He & Hf & Hi & Hr & Hs).
  cbn zeta in He, Hf, Hi, Hr, Hs. cbn [empty_report Report.executed_actions
    Report.failed_actions Report.total_investment Report.expected_return
    Report.success_rate] in He, Hf, Hi, Hr, Hs.
  subst report. unfold execute_scaling_actions, execute_body.
  fold tasks. fold results. unfold process_results. rewrite Hs.
  destruct (0 <? length results)%nat eqn:E.
  - apply Nat.ltb_lt in E.
    rewrite py_div_ok by (apply of_nat_nonzero; exact E).
    cbn. rewrite He, Hf, Hi, Hr. repeat split; try reflexivity; lra.
  - cbn. rewrite He, Hf, Hi, Hr. repeat split; try reflexivity; lra.
Qed.

(** C2, amended.  [executed_actions] is the number of units that returned
    a dictionary, whatever its status (success, failed, unknown_action or
    timeout), and [failed_actions] the number of units that raised.
    [total_investment] and [expected_return] are the sums over the
    returned dictionaries, which are also the sums over the success ones,
    the others carrying 0.  [success_rate] is [executed_actions] divided
    by the number of units, times 100, and 0 when there is no unit. *)
Theorem report_aggregation :
  forall (api_delay : Product.t -> Action.t -> Q) (self : Engine) (now : Q)
         (candidates : list Candidate.t),
    let results := action_results (create_tasks api_delay candidates) in
    let successes := filter (has_status "success") (returned results) in
    let report := fst (execute_scaling_actions api_delay self now candidates) in
    Report.executed_actions report = Z.of_nat (length (returned results)) /\
    Report.failed_actions report = Z.of_nat (length (raised results)) /\
    Report.total_investment report
    == sum_amount ActionResult.investment (returned results) /\
    Report.total_investment report == sum_amount ActionResult.investment successes /\
    Report.expected_return report
    == sum_amount ActionResult.expected_return (returned results) /\
    Report.expected_return report
    == sum_amount ActionResult.expected_return successes /\
    Report.success_rate report
    = (if (0 <? length results)%nat
       then inject_Z (Report.executed_actions report) / of_nat (length results) * 100
       else 0).
Proof.
  intros api_delay self now candidates results successes report.
  destruct (execute_report api_delay self now candidates)
    as (He & Hf & Hi & Hr & Hs & _).
  fold results in He, Hf, Hi, Hr, Hs. fold report in He, Hf, Hi, Hr, Hs.
  pose proof (action_results_idle api_delay candidates) as Hidle.
  fold results in Hidle.
  repeat split; try assumption.
  - rewrite Hi. symmetry. apply sum_amount_success.
    eapply Forall_impl; [|exact Hidle]. intros r [H | [H _]]; auto.
  - rewrite Hr. symmetry. apply sum_amount_success.
    eapply Forall_impl; [|exact Hidle]. intros r [H | [_ H]]; auto.
  - rewrite He. exact Hs.
Qed.

(** C2 as stated fails: a batch of one unit whose kind has no handler
    gives one result, of status unknown_action; no result has the status
    success, yet [executed_actions] is 1 and [failed_actions] is 0. *)
Lemma executed_counts_every_status :
  let candidates := [candidate_with [content_variation_action]] in
  let results := action_results (create_tasks simulated_delay candidates) in
  let report :=
    fst (execute_scaling_actions simulated_delay (create_scaling_engine 0) 0 candidates) in
  results = [Ok (unknown_result "content_variation")] /\
  length (filter (has_status "success") (returned results)) = 0%nat /\
  length (filter (fun r => negb (has_status "success" r)) (returned results)) = 1%nat /\
  Report.executed_actions report = 1%Z /\
  Report.failed_actions report = 0%Z.
Proof.
  vm_compute. repeat split.
Qed.

(** ** The shared deadline *)

Lemma wait_for_gather_none {A : Type} (timeout : Q) (tasks : list (timed A)) :
  (exists t, In t tasks /\ timeout <= fst t) <-> wait_for_gather timeout tasks = None.
Proof.
  unfold wait_for_gather.
  destruct (forallb (fun t => Qlt_bool (fst t) timeout) tasks) eqn:E; split.
  - intros (t & Hin & Hlate).
    rewrite forallb_forall in E. specialize (E t Hin).
    apply Qlt_bool_iff in E. exfalso. apply (Qlt_not_le _ _ E Hlate).
  - discriminate.
  - reflexivity.
  - intros _. induction tasks as [|t tasks IH]; [discriminate|].
    simpl in E. apply andb_false_iff in E. destruct E as [E | E].
    + exists t. split; [now left | now apply Qlt_bool_false_iff].
    + destruct (IH E) as (t' & Hin & Hlate). exists t'. split; [now right | exact Hlate].
Qed.

Lemma sum_amount_repeat_timeout (field : ActionResult.t -> option Q) (n : nat) :
  field timeout_result = Some 0 ->
  sum_amount field (repeat timeout_result n) == 0.
Proof.
  intro H. induction n as [|n IH]; simpl; [reflexivity|].
  fold (sum_amount field (repeat timeout_result n)). rewrite H, IH. simpl. lra.
Qed.

(** X21.  With the delay of the source as it stands every handler is
    done after at most 0.1 second, and the deadline is always met,
    whatever the batch. *)
Lemma simulated_calls_meet_deadline (candidates : list Candidate.t) :
  wait_for_gather 30 (create_tasks simulated_delay candidates)
  = Some (map snd (create_tasks simulated_delay candidates)).
Proof.
  unfold wait_for_gather.
  destruct (forallb _ _) eqn:E; [reflexivity|].
  assert (H : wait_for_gather 30 (create_tasks simulated_delay candidates) = None)
    by (unfold wait_for_gather; now rewrite E).
  apply wait_for_gather_none in H. destruct H as (t & Hin & Hlate).
  exfalso. unfold create_tasks in Hin. apply in_flat_map in Hin.
  destruct Hin as (c & _ & Hin). apply in_map_iff in Hin.
  destruct Hin as (action & <- & _). revert Hlate.
  unfold _execute_single_action, _increase_ad_spend, _expand_audience,
    _expand_platforms, _optimize_pricing, strict_handler, simulated_delay.
  destruct (Action.type action) as [k|]; cbn [dict_item fst];
    [|intro Hl; vm_compute in Hl; now apply Hl].
  repeat (destruct (String.eqb k _));
    destruct (Action.budget action), (Action.expected_increase action);
    cbn; intro Hl; vm_compute in Hl; now apply Hl.
Qed.

(** C1, amended.  When some unit is still pending at the deadline of 30
    seconds, every unit of the batch, the finished ones included, is
    reported with status timeout, investment 0 and expected return 0;
    the totals of the report are 0, every unit counts as executed and
    none as failed, and the wait ends at the deadline. *)
Theorem deadline_discards_every_result :
  forall (api_delay : Product.t -> Action.t -> Q) (self : Engine) (now : Q)
         (candidates : list Candidate.t) (pending : timed (res ActionResult.t)),
    let tasks := create_tasks api_delay candidates in
    let report := fst (execute_scaling_actions api_delay self now candidates) in
    In pending tasks ->
    30 <= fst pending ->
    action_results tasks = repeat (Ok timeout_result) (length tasks) /\
    Report.total_investment report == 0 /\
    Report.expected_return report == 0 /\
    Report.executed_actions report = Z.of_nat (length tasks) /\
    Report.failed_actions report = 0%Z /\
    Report.execution_time report = 30.
Proof.
  intros api_delay self now candidates pending tasks report Hin Hlate.
  assert (Hnone : wait_for_gather 30 tasks = None)
    by (apply wait_for_gather_none; eauto).
  assert (Hres : action_results tasks = repeat (Ok timeout_result) (length tasks))
    by (unfold action_results; now rewrite Hnone).
  destruct (execute_report api_delay self now candidates)
    as (He & Hf & Hi & Hr & _ & Ht).
  fold tasks in He, Hf, Hi, Hr, Ht. fold report in He, Hf, Hi, Hr, Ht.
  rewrite Hres in He, Hf, Hi, Hr.
  rewrite returned_repeat_timeout in He, Hi, Hr. rewrite raised_repeat_timeout in Hf.
  rewrite repeat_length in He.
  split; [exact Hres|].
  split; [rewrite Hi; now apply sum_amount_repeat_timeout|].
  split; [rewrite Hr; now apply sum_amount_repeat_timeout|].
  split; [exact He|]. split; [exact Hf|].
  rewrite Ht. unfold elapsed. now rewrite Hnone.
Qed.

Lemma deadline_discards_every_result_witness :
  action_results (create_tasks slow_pricing two_unit_batch)
  = [Ok timeout_result; Ok timeout_result] /\
  Report.total_investment
    (fst (execute_scaling_actions slow_pricing (create_scaling_engine 0) 0 two_unit_batch))
  == 0.
Proof.
  destruct (deadline_discards_every_result slow_pricing (create_scaling_engine 0) 0
              two_unit_batch
              (_execute_single_action slow_pricing (strong_product 750)
                 (price_action (create_scaling_engine 0) 750)))
    as (Hres & Hinv & _).
  - right. left. reflexivity.
  - vm_compute. discriminate.
  - split; [exact Hres | exact Hinv].
Defined.

(** C1 as stated fails: in a batch of two units where the ad-spend unit
    finishes after 0.1 second with an investment of 225 and an expected
    return of 375, and the pricing unit is still pending at the deadline,
    the finished unit is reported as a timeout too and the totals of the
    report are 0, not 225 and 375. *)
Lemma finished_unit_loses_its_result :
  let tasks := create_tasks slow_pricing two_unit_batch in
  let report :=
    fst (execute_scaling_actions slow_pricing (create_scaling_engine 0) 0 two_unit_batch) in
  (exists r,
      nth_error tasks 0 = Some (1 # 10, Ok r) /\
      1 # 10 < 30 /\
      ActionResult.status r = Some "success"%string /\
      amount_is (ActionResult.investment r) 225 /\
      amount_is (ActionResult.expected_return r) 375) /\
  nth_error (action_results tasks) 0 = Some (Ok timeout_result) /\
  ~ Report.total_investment report == 225 /\
  ~ Report.expected_return report == 375 /\
  Report.total_investment report == 0 /\
  Report.expected_return report == 0.
Proof.
  split.
  - eexists. split; [vm_compute; reflexivity|]. repeat split.
  - repeat split; vm_compute; reflexivity || discriminate.
Qed.

(** ** Unknown action kinds *)

Lemma unknown_unit (api_delay : Product.t -> Action.t -> Q) (product : Product.t)
      (action : Action.t) (kind : string) :
  Action.type action = Some kind ->
  known_kind kind = false ->
  _execute_single_action api_delay product action = (0, Ok (unknown_result kind)).
Proof.
  intros Ht Hk. unfold known_kind in Hk.
  repeat (apply orb_false_iff in Hk; destruct Hk as [Hk ?]).
  unfold _execute_single_action. rewrite Ht. cbn [dict_item].
  now repeat match goal with H : String.eqb kind _ = false |- _ => rewrite H; clear H end.
Qed.

Lemma gather_with_instant_unit {A : Type} (before after : list (timed A)) (a : A) :
  wait_for_gather 30 (before ++ (0, a) :: after)
  = option_map (fun siblings => firstn (length before) siblings ++ a
                                  :: skipn (length before) siblings)
               (wait_for_gather 30 (before ++ after)).
Proof.
  unfold wait_for_gather.
  rewrite !forallb_app. cbn [forallb fst].
  replace (Qlt_bool 0 30) with true by reflexivity. cbn [andb].
  destruct (forallb _ before && forallb _ after); cbn [option_map]; [|reflexivity].
  rewrite !map_app. cbn [map snd].
  replace (length before) with (length (map snd before)) by apply length_map.
  rewrite firstn_app, Nat.sub_diag, firstn_all, firstn_O, app_nil_r.
  rewrite skipn_app, Nat.sub_diag, skipn_all. reflexivity.
Qed.

(** C8.  A unit whose action has a kind without a handler returns, at
    once and without raising, the dictionary of status unknown_action
    with investment 0 and expected return 0.  Its siblings are not
    affected: whether the batch meets the deadline is decided by them
    alone, and when it does their results are those of the batch without
    the unit, in the same order, with its dictionary in its place. *)
Theorem unknown_kind_is_contained :
  forall (api_delay : Product.t -> Action.t -> Q) (product : Product.t)
         (action : Action.t) (kind : string)
         (before after : list (timed (res ActionResult.t))),
    Action.type action = Some kind ->
    known_kind kind = false ->
    let unit := _execute_single_action api_delay product action in
    unit = (0, Ok (unknown_result kind)) /\
    ActionResult.status (unknown_result kind) = Some "unknown_action"%string /\
    ActionResult.investment (unknown_result kind) = Some 0 /\
    ActionResult.expected_return (unknown_result kind) = Some 0 /\
    wait_for_gather 30 (before ++ unit :: after)
    = option_map (fun siblings => firstn (length before) siblings
                                    ++ Ok (unknown_result kind)
                                    :: skipn (length before) siblings)
                 (wait_for_gather 30 (before ++ after)).
Proof.
  intros api_delay product action kind before after Ht Hk unit.
  assert (E : unit = (0, Ok (unknown_result kind))) by (now apply unknown_unit).
  split; [exact E|]. repeat split.
  rewrite E. apply gather_with_instant_unit.
Qed.

Lemma unknown_kind_is_contained_witness :
  _execute_single_action simulated_delay (strong_product 750) content_variation_action
  = (0, Ok (unknown_result "content_variation")) /\
  wait_for_gather 30
    (create_tasks simulated_delay
       [candidate_with [ad_spend_action (create_scaling_engine 0) 750;
                        content_variation_action;
                        price_action (create_scaling_engine 0) 750]])
  = Some [Ok (success_result "ad_spend_increase" (Qmin (750 * (3 # 10)) 1000)
                             (750 * (5 # 10)));
          Ok (unknown_result "content_variation");
          Ok (success_result "price_optimization" (750 * (1 # 10)) (750 * (3 # 10)))].
Proof.
  destruct (unknown_kind_is_contained simulated_delay (strong_product 750)
              content_variation_action "content_variation"
              [_execute_single_action simulated_delay (strong_product 750)
                 (ad_spend_action (create_scaling_engine 0) 750)]
              [_execute_single_action simulated_delay (strong_product 750)
                 (price_action (create_scaling_engine 0) 750)])
    as (Hunit & _ & _ & _ & Hbatch); [reflexivity | reflexivity |].
  split; [exact Hunit | exact Hbatch].
Defined.

(** * Further properties of the engine *)

(** ** The score as a closed expression *)

Lemma efficiency_eq (ltv cac : Q) :
  efficiency ltv cac = Ok (if Qlt_bool 0 cac then Qmin (ltv / cac / 5) 1 else 0).
Proof.
  unfold efficiency. destruct (Qlt_bool 0 cac) eqn:E; [|reflexivity].
  apply Qlt_bool_iff in E.
  rewrite py_div_ok by (intro H; rewrite H in E; apply (Qlt_irrefl _ E)).
  cbn [bind]. rewrite py_div_ok by discriminate. reflexivity.
Qed.

Lemma score_eq (self : Engine) (metrics : Metrics.t) :
  ~ revenue_threshold (scaling_thresholds self) == 0 ->
  _calculate_opportunity_score self metrics
  = Qmax 0 (Qmin 1 (weighted_total self metrics)).
Proof.
  intro H. unfold _calculate_opportunity_score, opportunity_score_body.
  rewrite (py_div_ok _ _ H). cbn [bind].
  rewrite !py_div_ok by discriminate. cbn [bind].
  rewrite efficiency_eq. reflexivity.
Qed.

Lemma div_const (x : Q) (d : positive) : x / (Zpos d # 1) == x * (1 # d).
Proof.
  unfold Qdiv. apply Qmult_comp; reflexivity.
Qed.

Lemma efficiency_part_le_1 (ltv cac : Q) :
  (if Qlt_bool 0 cac then Qmin (ltv / cac / 5) 1 else 0) <= 1.
Proof.
  destruct (Qlt_bool 0 cac); [apply Q.le_min_r | lra].
Qed.

(** What a score of at least 0.8 needs. *)
Lemma qualifying_bounds (self : Engine) (metrics : Metrics.t) :
  8 # 10 <= _calculate_opportunity_score self metrics ->
  ~ revenue_threshold (scaling_thresholds self) == 0 /\
  1 # 3 <= dict_get (Metrics.current_revenue metrics) 0
           / revenue_threshold (scaling_thresholds self) /\
  20 <= dict_get (Metrics.growth_rate metrics) 0 /\
  0 <= dict_get (Metrics.conversion_rate metrics) 0.
Proof.
  intro H.
  assert (Hth : ~ revenue_threshold (scaling_thresholds self) == 0).
  { intro Hz. rewrite (zero_threshold_score self metrics Hz) in H. lra. }
  split; [exact Hth|].
  rewrite (score_eq self metrics Hth) in H.
  apply Q.max_le in H. destruct H as [H | H]; [lra|].
  apply Q.min_glb_r in H. unfold weighted_total in H.
  pose proof (efficiency_part_le_1
                (dict_get (Metrics.lifetime_value metrics) 0)
                (dict_get (Metrics.customer_acquisition_cost metrics) 1)) as He.
  set (es := if Qlt_bool 0 _ then _ else _) in *.
  set (r := dict_get (Metrics.current_revenue metrics) 0 / _) in *.
  set (g := dict_get (Metrics.growth_rate metrics) 0) in *.
  set (c := dict_get (Metrics.conversion_rate metrics) 0) in *.
  set (p := dict_get (Metrics.profit_margin metrics) 0) in *.
  pose proof (Q.le_min_r r 1). pose proof (Q.le_min_l r 1).
  pose proof (Q.le_min_r (g / 100) 1). pose proof (Q.le_min_l (g / 100) 1).
  pose proof (Q.le_min_r (c / 10) 1). pose proof (Q.le_min_l (c / 10) 1).
  pose proof (Q.le_min_r p 1).
  pose proof (div_const g 100) as Hg. pose proof (div_const c 10) as Hc.
  set (rs := Qmin r 1) in *. set (gs := Qmin (g / 100) 1) in *.
  set (cs := Qmin (c / 10) 1) in *. set (ps := Qmin p 1) in *.
  set (g100 := g / 100) in *. set (c10 := c / 10) in *.
  repeat split; lra.
Qed.

(** X1.  A product whose history has 2 to 7 samples gets the metrics of
    the [except] branch: current revenue, growth rate, conversion rate and
    traffic volume 0, whatever its snapshot values. *)
Theorem short_history_zeroes_metrics :
  forall (product : Product.t),
    (2 <= history_length product <= 7)%nat ->
    _calculate_product_metrics product
    = Metrics.mk (Some 0) (Some 0) (Some 0) (Some 0) (Some (7 # 10)) (Some 50) (Some 200).
Proof.
  intros product H. unfold history_length in H.
  destruct (Product.historical_data product) as [h|] eqn:Hh;
    cbn [dict_get length] in H; [|lia].
  exact (proj2 (short_history_falls_back product h Hh H)).
Qed.

Lemma short_history_zeroes_metrics_witness :
  _calculate_product_metrics (history_product 750 [100; 200; 300])
  = Metrics.mk (Some 0) (Some 0) (Some 0) (Some 0) (Some (7 # 10)) (Some 50) (Some 200).
Proof.
  apply short_history_zeroes_metrics. vm_compute. lia.
Defined.



(** X3.  The scorer never returns a product whose history has 2 to 7
    samples, whatever its metrics and whatever the configuration: its
    growth rate was replaced by 0. *)
Theorem short_history_never_ranked :
  forall (self : Engine) (products : list Product.t) (c : Candidate.t),
    In c (analyze_scaling_opportunities self products) ->
    (history_length (Candidate.product c) < 2 \/ 7 < history_length (Candidate.product c))%nat.
Proof.
  intros self products c H.
  destruct (analyze_incl _ _ _ H) as (p & _ & Hq & ->).
  cbn [make_candidate Candidate.product].
  destruct (Nat.lt_ge_cases (history_length p) 2) as [Hlt | Hge]; [now left|].
  destruct (Nat.lt_ge_cases 7 (history_length p)) as [Hlt | Hle]; [now right|].
  exfalso. unfold history_length in *.
  destruct (Product.historical_data p) as [h|] eqn:Hh; cbn [dict_get length] in *; [|lia].
  apply Qle_bool_iff in Hq.
  rewrite (proj2 (short_history_falls_back p h Hh (conj Hge Hle))) in Hq.
  destruct (qualifying_bounds _ _ Hq) as (_ & _ & Hg & _).
  cbn in Hg. lra.
Qed.

Lemma short_history_never_ranked_witness :
  (history_length (strong_product 1000) < 2 \/ 7 < history_length (strong_product 1000))%nat.
Proof.
  apply (short_history_never_ranked (create_scaling_engine 0) [strong_product 1000]
           (make_candidate (create_scaling_engine 0) (strong_product 1000))).
  vm_compute. left. reflexivity.
Defined.

(** ** The score is monotone *)

Lemma div_le_compat (a b d : Q) : 0 < d -> a <= b -> a / d <= b / d.
Proof.
  intros Hd H. unfold Qdiv. apply Qmult_le_compat_r; [exact H|].
  apply Qlt_le_weak, Qinv_lt_0_compat, Hd.
Qed.

(** X4.  With a positive revenue threshold the opportunity score does not
    decrease when current revenue, growth rate, conversion rate, profit
    margin or lifetime value increase, the acquisition cost being the
    same. *)
Theorem score_monotone :
  forall (self : Engine) (m1 m2 : Metrics.t),
    0 < revenue_threshold (scaling_thresholds self) ->
    metrics_le m1 m2 ->
    _calculate_opportunity_score self m1 <= _calculate_opportunity_score self m2.
Proof.
  intros self m1 m2 Hth (Hr & Hg & Hc & Hp & Hl & Hcac).
  assert (Hnz : ~ revenue_threshold (scaling_thresholds self) == 0)
    by (intro Hz; rewrite Hz in Hth; apply (Qlt_irrefl _ Hth)).
  rewrite !score_eq by exact Hnz. apply clamp_mono.
  unfold weighted_total. rewrite Hcac.
  set (cac := dict_get (Metrics.customer_acquisition_cost m2) 1).
  assert (H1 := Q.min_le_compat_r _ _ 1 (div_le_compat _ _ _ Hth Hr)).
  assert (H2 := Q.min_le_compat_r _ _ 1
                  (div_le_compat _ _ 100 ltac:(reflexivity) Hg)).
  assert (H3 := Q.min_le_compat_r _ _ 1
                  (div_le_compat _ _ 10 ltac:(reflexivity) Hc)).
  assert (H4 := Q.min_le_compat_r _ _ 1 Hp).
  assert (H5 : (if Qlt_bool 0 cac
                then Qmin (dict_get (Metrics.lifetime_value m1) 0 / cac / 5) 1 else 0)
               <= (if Qlt_bool 0 cac
                   then Qmin (dict_get (Metrics.lifetime_value m2) 0 / cac / 5) 1 else 0)).
  { destruct (Qlt_bool 0 cac) eqn:E; [|lra].
    apply Qlt_bool_iff in E. apply Q.min_le_compat_r.
    apply div_le_compat; [reflexivity|]. apply div_le_compat; assumption. }
  apply Qplus_le_compat; [|apply Qmult_le_compat_r; [exact H5 | discriminate]].
  apply Qplus_le_compat; [|apply Qmult_le_compat_r; [exact H4 | discriminate]].
  apply Qplus_le_compat; [|apply Qmult_le_compat_r; [exact H3 | discriminate]].
  apply Qplus_le_compat; apply Qmult_le_compat_r;
    try discriminate; assumption.
Qed.

Lemma score_monotone_witness :
  _calculate_opportunity_score (create_scaling_engine 0) plain_metrics
  <= _calculate_opportunity_score (create_scaling_engine 0) boosted_metrics.
Proof.
  apply score_monotone.
  - reflexivity.
  - repeat split; vm_compute; discriminate.
Defined.

(** ** The shape and the return of a plan *)

(** X5.  Every generated strategy is of medium risk and holds one to four
    actions of distinct known kinds, each with a multiplier, a budget and
    an expected increase; the last one is the price optimization, with a
    budget of 10% and an expected increase of 30% of the current revenue,
    and the budget of an ad-spend action exceeds neither 30% of the
    current revenue nor the configured maximum ad spend. *)
Theorem strategy_shape :
  forall (self : Engine) (product : Product.t) (metrics : Metrics.t),
    let strategy := _generate_scaling_strategy self product metrics in
    let actions := Strategy.actions strategy in
    let revenue := dict_get (Metrics.current_revenue metrics) 0 in
    Strategy.risk_level strategy = Some "medium"%string /\
    (1 <= length actions <= 4)%nat /\
    last actions (price_action self revenue) = price_action self revenue /\
    In (price_action self revenue) actions /\
    NoDup (map Action.type actions) /\
    Forall (fun a => exists kind m b e,
                Action.type a = Some kind /\ known_kind kind = true /\
                Action.multiplier a = Some m /\ Action.budget a = Some b /\
                Action.expected_increase a = Some e) actions /\
    Forall (fun a => Action.type a = Some "ad_spend_increase"%string ->
                     exists b, Action.budget a = Some b /\
                               b <= revenue * (3 # 10) /\
                               b <= max_ad_spend (config self)) actions.
Proof.
  intros self product metrics strategy actions revenue.
  subst actions strategy. rewrite generate_scaling_strategy_eq.
  cbn [Strategy.risk_level Strategy.actions].
  split; [reflexivity|].
  unfold strategy_actions. fold revenue.
  assert (Had : exists b, Action.budget (ad_spend_action self revenue) = Some b /\
                          b <= revenue * (3 # 10) /\ b <= max_ad_spend (config self)).
  { eexists. split; [reflexivity|]. split; [apply Q.le_min_l | apply Q.le_min_r]. }
  destruct (Qle_bool _ _), (Qlt_bool _ _), (Qlt_bool _ _); cbn [app length last];
    (split; [lia|]); (split; [reflexivity|]);
    (split; [cbn; tauto|]);
    (split; [cbn [map Action.type ad_spend_action audience_action platform_action
                  price_action];
             repeat constructor; cbn; intuition discriminate|]);
    (split; [repeat constructor; do 4 eexists; repeat split|]);
    repeat constructor; try exact (fun _ => Had); cbn; discriminate.
Qed.

Lemma roi_lower (R I : Q) :
  0 < I -> (5 # 3) * I <= R -> 200 # 3 <= (R / I - 1) * 100.
Proof.
  intros HI H.
  assert (Hq : 5 # 3 <= R / I) by (apply Qle_shift_div_l; assumption).
  lra.
Qed.

Lemma roi_upper (R I : Q) :
  0 < I -> R <= 4 * I -> (R / I - 1) * 100 <= 300.
Proof.
  intros HI H.
  assert (Hq : R / I <= 4) by (apply Qle_shift_div_r; assumption).
  lra.
Qed.

(** The expected ROI of a plan for a positive revenue. *)
Lemma plan_roi_bounds (self : Engine) (metrics : Metrics.t) :
  0 < dict_get (Metrics.current_revenue metrics) 0 ->
  0 <= max_ad_spend (config self) ->
  200 # 3 <= plan_roi (strategy_actions self metrics) /\
  (dict_get (Metrics.current_revenue metrics) 0 * (3 # 10) <= max_ad_spend (config self) ->
   plan_roi (strategy_actions self metrics) <= 300).
Proof.
  intros Hr HM. unfold plan_roi, strategy_actions.
  set (r := dict_get (Metrics.current_revenue metrics) 0) in *.
  unfold ad_spend_action, audience_action, platform_action, price_action.
  set (M := max_ad_spend (config self)) in *.
  pose proof (Q.le_min_l (r * (3 # 10)) M) as Hm1.
  assert (Hm0 : 0 <= Qmin (r * (3 # 10)) M) by (apply Q.min_glb; lra).
  assert (Hcap : r * (3 # 10) <= M -> r * (3 # 10) <= Qmin (r * (3 # 10)) M)
    by (intro; apply Q.min_glb; lra).
  set (m := Qmin (r * (3 # 10)) M) in *.
  destruct (Qle_bool (revenue_threshold (scaling_thresholds self)) r),
    (Qlt_bool (growth_rate_threshold (scaling_thresholds self))
              (dict_get (Metrics.growth_rate metrics) 0)),
    (Qlt_bool (conversion_threshold (scaling_thresholds self))
              (dict_get (Metrics.conversion_rate metrics) 0));
    cbn [app total_of fold_left dict_get Action.budget Action.expected_increase];
    match goal with
    | |- context [Qlt_bool 0 ?I] =>
        destruct (Qlt_bool 0 I) eqn:E;
        [apply Qlt_bool_iff in E | apply Qlt_bool_false_iff in E; exfalso; lra]
    end;
    (split; [apply roi_lower; [exact E | lra]
            | intro Hc; specialize (Hcap Hc); apply roi_upper; [exact E | lra]]).
Qed.

(** X6.  For a positive current revenue and a maximum ad spend that is
    not negative, the expected ROI stored in the generated strategy is at
    least 200/3 percent; it is at most 300 percent when the ad-spend
    budget is not capped by the maximum. *)
Theorem strategy_roi_bounds :
  forall (self : Engine) (product : Product.t) (metrics : Metrics.t),
    0 < dict_get (Metrics.current_revenue metrics) 0 ->
    0 <= max_ad_spend (config self) ->
    exists roi,
      Strategy.expected_roi (_generate_scaling_strategy self product metrics) = Some roi /\
      200 # 3 <= roi /\
      (dict_get (Metrics.current_revenue metrics) 0 * (3 # 10)
       <= max_ad_spend (config self) -> roi <= 300).
Proof.
  intros self product metrics Hr HM.
  rewrite generate_scaling_strategy_eq. cbn [Strategy.expected_roi].
  eexists. split; [reflexivity|]. now apply plan_roi_bounds.
Qed.

Lemma strategy_roi_bounds_witness :
  exists roi,
    Strategy.expected_roi
      (_generate_scaling_strategy (create_scaling_engine 0) no_product plain_metrics)
    = Some roi /\ 200 # 3 <= roi /\ roi <= 300.
Proof.
  destruct (strategy_roi_bounds (create_scaling_engine 0) no_product plain_metrics)
    as (roi & E & Hlo & Hhi).
  - reflexivity.
  - discriminate.
  - exists roi. split; [exact E|]. split; [exact Hlo|].
    apply Hhi. vm_compute. discriminate.
Defined.

(** X7.  With a positive revenue threshold and a maximum ad spend that is
    not negative, every candidate that the scorer returns has a positive
    current revenue and an estimated ROI between 200/3 and 500 percent. *)
Theorem returned_roi_bounds :
  forall (self : Engine) (products : list Product.t) (c : Candidate.t),
    0 < revenue_threshold (scaling_thresholds self) ->
    0 <= max_ad_spend (config self) ->
    In c (analyze_scaling_opportunities self products) ->
    0 < dict_get (Metrics.current_revenue (Candidate.metrics c)) 0 /\
    200 # 3 <= Candidate.estimated_roi c <= 500.
Proof.
  intros self products c Hth HM H.
  destruct (analyze_incl _ _ _ H) as (p & _ & Hq & ->).
  apply Qle_bool_iff in Hq.
  destruct (qualifying_bounds _ _ Hq) as (_ & Hrev & _ & _).
  cbn [make_candidate Candidate.metrics Candidate.estimated_roi].
  set (metrics := _calculate_product_metrics p) in *.
  assert (Hpos : 0 < dict_get (Metrics.current_revenue metrics) 0).
  { set (r := dict_get (Metrics.current_revenue metrics) 0) in *.
    set (th := revenue_threshold (scaling_thresholds self)) in *.
    assert (Hm : th * (r / th) == r).
    { apply Qmult_div_r. intro Hz. rewrite Hz in Hth. apply (Qlt_irrefl _ Hth). }
    assert (0 < th * (r / th)); [|lra].
    apply Qmult_lt_0_compat; [exact Hth | lra]. }
  split; [exact Hpos|]. split; [|apply estimate_roi_range].
  destruct (plan_roi_bounds self metrics Hpos HM) as [Hlo _].
  rewrite generate_scaling_strategy_eq.
  unfold _estimate_roi. cbn [Strategy.expected_roi Strategy.risk_level dict_get
                             opt_string_eqb String.eqb Ascii.eqb Bool.eqb].
  set (base := plan_roi _) in *.
  apply Q.max_le_iff. right. apply Q.min_glb; [lra|].
  destruct (Qlt_bool 50 _), (Qlt_bool 5 _); lra.
Qed.

Lemma returned_roi_bounds_witness :
  200 # 3 <= Candidate.estimated_roi
               (make_candidate (create_scaling_engine 0) (strong_product 1000)) <= 500.
Proof.
  apply (returned_roi_bounds (create_scaling_engine 0) [strong_product 1000]).
  - reflexivity.
  - discriminate.
  - vm_compute. left. reflexivity.
Defined.

(** ** Caps that are zero or negative, and ties *)

Lemma slice_negative {A : Type} (k : Z) (l : list A) :
  (k < 0)%Z -> py_slice None (Some k) l = firstn (length l - Z.to_nat (- k)) l.
Proof.
  intro H. unfold py_slice, slice_bound.
  destruct (k <? 0)%Z eqn:E; [|apply Z.ltb_ge in E; lia].
  rewrite Nat.sub_0_r. cbn [skipn]. f_equal. lia.
Qed.

(** X8.  A concurrency cap of 0 returns no candidate.  A negative cap K
    does not return none: the slice then drops the |K| lowest-ranked of
    the candidates that reach 0.8 and returns the others, in descending
    order. *)
Theorem nonpositive_cap :
  forall (self : Engine) (products : list Product.t),
    let K := max_concurrent_scales (scaling_thresholds self) in
    let qualifying := filter (qualifies self) products in
    let ranked := analyze_scaling_opportunities self products in
    (K = 0%Z -> ranked = []) /\
    ((K < 0)%Z ->
     length ranked = (length qualifying - Z.to_nat (- K))%nat /\
     exists dropped,
       Permutation (ranked ++ dropped) (map (make_candidate self) qualifying) /\
       length dropped = Nat.min (Z.to_nat (- K)) (length qualifying) /\
       forall a b, In a ranked -> In b dropped -> rank_key b <= rank_key a).
Proof.
  intros self products K qualifying ranked. subst ranked.
  unfold analyze_scaling_opportunities. fold K.
  rewrite scaling_candidates_filter. fold qualifying.
  set (sorted := sort_reverse rank_key (map (make_candidate self) qualifying)).
  assert (Hperm : Permutation sorted (map (make_candidate self) qualifying))
    by apply sort_reverse_perm.
  assert (Hlen : length sorted = length qualifying)
    by (rewrite (Permutation_length Hperm); apply length_map).
  split.
  - intros ->. rewrite slice_to_firstn by lia. reflexivity.
  - intro HK. rewrite slice_negative by exact HK. rewrite Hlen.
    set (n := (length qualifying - Z.to_nat (- K))%nat).
    destruct (sorted_firstn_skipn rank_key n sorted (sort_reverse_sorted rank_key _))
      as [_ Hd].
    split; [rewrite length_firstn; lia|].
    exists (skipn n sorted). split; [now rewrite firstn_skipn|].
    split; [rewrite length_skipn; lia | exact Hd].
Qed.

Lemma nonpositive_cap_witness :
  analyze_scaling_opportunities (engine_with_cap 0) [strong_product 1000] = [] /\
  length (analyze_scaling_opportunities
            (engine_with_cap (-1)) [strong_product 1000; strong_product 2000]) = 1%nat.
Proof.
  split.
  - apply (nonpositive_cap (engine_with_cap 0) [strong_product 1000]). reflexivity.
  - destruct (nonpositive_cap (engine_with_cap (-1))
                [strong_product 1000; strong_product 2000]) as [_ H].
    destruct H as [Hlen _]; [reflexivity | exact Hlen].
Defined.

Lemma sort_reverse_sorted_id {A : Type} (key : A -> Q) (l : list A) :
  StronglySorted (desc key) l -> sort_reverse key l = l.
Proof.
  induction 1 as [|x l Hs IH Hx]; [reflexivity|].
  cbn [sort_reverse fold_right]. fold (sort_reverse key l). rewrite IH.
  destruct l as [|y l']; [reflexivity|].
  cbn [insert_desc]. apply Forall_inv in Hx. unfold desc in Hx.
  apply Qle_bool_iff in Hx. now rewrite Hx.
Qed.

(** X9.  Ties keep their input order: when the products that reach 0.8
    already come in an order in which score times estimated ROI does not
    increase, the scorer returns the first K of them as they came. *)
Theorem sorted_input_keeps_order :
  forall (self : Engine) (products : list Product.t),
    let K := max_concurrent_scales (scaling_thresholds self) in
    let candidates := map (make_candidate self) (filter (qualifies self) products) in
    (0 <= K)%Z ->
    StronglySorted (fun a b => rank_key b <= rank_key a) candidates ->
    analyze_scaling_opportunities self products = firstn (Z.to_nat K) candidates.
Proof.
  intros self products K candidates HK Hs.
  unfold analyze_scaling_opportunities. fold K.
  rewrite slice_to_firstn by exact HK.
  rewrite scaling_candidates_filter. fold candidates.
  now rewrite (sort_reverse_sorted_id rank_key candidates Hs).
Qed.

Lemma sorted_input_keeps_order_witness :
  analyze_scaling_opportunities (engine_with_cap 5) [strong_product 1000; strong_product 1000]
  = [make_candidate (engine_with_cap 5) (strong_product 1000);
     make_candidate (engine_with_cap 5) (strong_product 1000)].
Proof.
  apply (sorted_input_keeps_order (engine_with_cap 5)
           [strong_product 1000; strong_product 1000]).
  - discriminate.
  - repeat constructor; vm_compute; discriminate.
Defined.

(** ** What a unit returns *)

Lemma known_kind_cases (kind : string) :
  known_kind kind = true ->
  kind = "ad_spend_increase"%string \/ kind = "audience_expansion"%string \/
  kind = "platform_expansion"%string \/ kind = "price_optimization"%string.
Proof.
  unfold known_kind. rewrite !orb_true_iff, !String.eqb_eq. tauto.
Qed.

(** X10.  A unit of a known kind succeeds, after the external call, with
    the budget and the expected increase of its action when both keys are
    present.  When the expected increase is missing it is reported as
    failed at once, with investment 0 and expected return 0.  When only
    the budget is missing the price optimization still succeeds, with an
    investment of 0, and the three other kinds are reported as failed. *)
Theorem known_unit_outcome :
  forall (api_delay : Product.t -> Action.t -> Q) (product : Product.t)
         (action : Action.t) (kind : string),
    Action.type action = Some kind ->
    known_kind kind = true ->
    _execute_single_action api_delay product action =
    match Action.expected_increase action, Action.budget action with
    | Some e, Some b => (api_delay product action, Ok (success_result kind b e))
    | Some e, None =>
        if String.eqb kind "price_optimization"
        then (api_delay product action, Ok (success_result kind 0 e))
        else (0, Ok (failed_result kind))
    | None, _ => (0, Ok (failed_result kind))
    end.
Proof.
  intros api_delay product action kind Ht Hk.
  unfold _execute_single_action. rewrite Ht. cbn [dict_item].
  unfold _increase_ad_spend, _expand_audience, _expand_platforms, _optimize_pricing,
    strict_handler.
  destruct (known_kind_cases kind Hk) as [-> | [-> | [-> | ->]]];
    destruct (Action.expected_increase action), (Action.budget action); reflexivity.
Qed.

Lemma known_unit_outcome_witness :
  _execute_single_action simulated_delay no_product
    (Action.mk (Some "price_optimization"%string) None None (Some 30))
  = (1 # 10, Ok (success_result "price_optimization" 0 30)) /\
  _execute_single_action simulated_delay no_product
    (Action.mk (Some "ad_spend_increase"%string) None None (Some 30))
  = (0, Ok (failed_result "ad_spend_increase")).
Proof.
  split.
  - exact (known_unit_outcome simulated_delay no_product
             (Action.mk (Some "price_optimization"%string) None None (Some 30))
             "price_optimization" eq_refl eq_refl).
  - exact (known_unit_outcome simulated_delay no_product
             (Action.mk (Some "ad_spend_increase"%string) None None (Some 30))
             "ad_spend_increase" eq_refl eq_refl).
Defined.

(** ** Counting the units *)

Lemma create_tasks_units (api_delay : Product.t -> Action.t -> Q)
      (candidates : list Candidate.t) :
  create_tasks api_delay candidates
  = map (fun u => _execute_single_action api_delay (fst u) (snd u)) (units candidates).
Proof.
  unfold create_tasks, units.
  induction candidates as [|c cs IH]; [reflexivity|].
  cbn [flat_map]. rewrite map_app, map_map, IH. reflexivity.
Qed.

Lemma planned_actions_units (candidates : list Candidate.t) :
  planned_actions candidates = map snd (units candidates).
Proof.
  unfold planned_actions, units.
  induction candidates as [|c cs IH]; [reflexivity|].
  cbn [flat_map]. rewrite map_app, map_map, IH. cbn [snd]. now rewrite map_id.
Qed.

Lemma create_tasks_length (api_delay : Product.t -> Action.t -> Q)
      (candidates : list Candidate.t) :
  length (create_tasks api_delay candidates) = length (planned_actions candidates).
Proof.
  now rewrite create_tasks_units, planned_actions_units, !length_map.
Qed.

Lemma returned_raised_length (results : list (res ActionResult.t)) :
  (length (returned results) + length (raised results))%nat = length results.
Proof.
  induction results as [|[a|e] l IH]; [reflexivity| |].
  - change (returned (Ok a :: l)) with (a :: returned l).
    change (raised (Ok a :: l)) with (raised l). cbn [length]. lia.
  - change (returned (Raise e :: l)) with (returned l).
    change (raised (Raise e :: l)) with (e :: raised l). cbn [length]. lia.
Qed.

Lemma raised_cons (x : res ActionResult.t) (l : list (res ActionResult.t)) :
  raised (x :: l) = raised [x] ++ raised l.
Proof.
  unfold raised. cbn [flat_map]. now rewrite app_nil_r.
Qed.

Lemma unit_raises (api_delay : Product.t -> Action.t -> Q) (product : Product.t)
      (action : Action.t) :
  raised [snd (_execute_single_action api_delay product action)]
  = if lacks_type action then [KeyError "type"] else [].
Proof.
  unfold _execute_single_action, lacks_type.
  destruct (Action.type action) as [k|]; cbn [dict_item]; [|reflexivity].
  repeat (destruct (String.eqb k _)); reflexivity.
Qed.

Lemma raised_count (api_delay : Product.t -> Action.t -> Q)
      (l : list (Product.t * Action.t)) :
  length (raised (map snd (map (fun u => _execute_single_action api_delay (fst u) (snd u)) l)))
  = length (filter lacks_type (map snd l)).
Proof.
  induction l as [|[p a] l IH]; [reflexivity|].
  cbn [map fst snd filter].
  rewrite raised_cons, length_app, IH, unit_raises.
  destruct (lacks_type a); reflexivity.
Qed.

(** X11.  A unit raises only when its action has no 'type' key: when the
    deadline is met, [failed_actions] is the number of such actions in
    the batch; after a timeout it is 0. *)
Theorem failed_actions_count :
  forall (api_delay : Product.t -> Action.t -> Q) (self : Engine) (now : Q)
         (candidates : list Candidate.t),
    Report.failed_actions (fst (execute_scaling_actions api_delay self now candidates))
    = match wait_for_gather 30 (create_tasks api_delay candidates) with
      | Some _ => Z.of_nat (length (filter lacks_type (planned_actions candidates)))
      | None => 0%Z
      end.
Proof.
  intros api_delay self now candidates.
  destruct (execute_report api_delay self now candidates) as (_ & Hf & _).
  rewrite Hf. unfold action_results.
  destruct (wait_for_gather 30 _) as [results|] eqn:E.
  - unfold wait_for_gather in E. destruct (forallb _ _); [|discriminate].
    injection E as <-.
    now rewrite create_tasks_units, raised_count, planned_actions_units.
  - now rewrite raised_repeat_timeout.
Qed.

(** X12.  Every unit is counted once: [executed_actions] and
    [failed_actions] are not negative and add up to the number of actions
    of the batch, and [success_rate] lies between 0 and 100. *)
Theorem report_counts_every_unit :
  forall (api_delay : Product.t -> Action.t -> Q) (self : Engine) (now : Q)
         (candidates : list Candidate.t),
    let report := fst (execute_scaling_actions api_delay self now candidates) in
    (0 <= Report.executed_actions report)%Z /\
    (0 <= Report.failed_actions report)%Z /\
    (Report.executed_actions report + Report.failed_actions report)%Z
    = Z.of_nat (length (planned_actions candidates)) /\
    0 <= Report.success_rate report <= 100.
Proof.
  intros api_delay self now candidates report.
  destruct (execute_report api_delay self now candidates)
    as (He & Hf & _ & _ & Hs & _).
  fold report in He, Hf, Hs.
  set (results := action_results (create_tasks api_delay candidates)) in *.
  pose proof (returned_raised_length results) as Hsum.
  assert (Hn : length results = length (planned_actions candidates))
    by (subst results; rewrite action_results_length; apply create_tasks_length).
  split; [lia|]. split; [lia|]. split; [lia|].
  rewrite Hs. destruct (0 <? length results)%nat eqn:E; [|lra].
  apply Nat.ltb_lt in E.
  assert (Hd : 0 < of_nat (length results)).
  { unfold of_nat. rewrite <- (Zlt_Qlt 0). lia. }
  assert (H0 : 0 <= inject_Z (Z.of_nat (length (returned results)))).
  { rewrite <- (Zle_Qle 0). lia. }
  assert (H1 : inject_Z (Z.of_nat (length (returned results))) <= of_nat (length results)).
  { unfold of_nat. rewrite <- Zle_Qle. lia. }
  set (e := inject_Z _) in *. set (n := of_nat _) in *.
  assert (Hq0 : 0 <= e / n) by (apply Qle_shift_div_l; [exact Hd | lra]).
  assert (Hq1 : e / n <= 1) by (apply Qle_shift_div_r; [exact Hd | lra]).
  lra.
Qed.

(** ** The counters of the engine *)

Lemma gather_time_nonneg {A : Type} (tasks : list (timed A)) : 0 <= gather_time tasks.
Proof.
  induction tasks as [|t tasks IH]; cbn [gather_time fold_right]; [lra|].
  eapply Qle_trans; [exact IH | apply Q.le_max_r].
Qed.

Lemma gather_time_deadline {A : Type} (timeout : Q) (tasks : list (timed A)) :
  0 < timeout ->
  forallb (fun t => Qlt_bool (fst t) timeout) tasks = true ->
  gather_time tasks < timeout.
Proof.
  intros Ht. induction tasks as [|t tasks IH]; cbn [gather_time fold_right forallb].
  - intros _. exact Ht.
  - intro H. apply andb_true_iff in H. destruct H as [H1 H2].
    apply Qlt_bool_iff in H1. apply Q.max_lub_lt; [exact H1 | exact (IH H2)].
Qed.

Lemma elapsed_range (tasks : list (timed (res ActionResult.t))) :
  0 <= elapsed tasks <= 30.
Proof.
  unfold elapsed, wait_for_gather.
  match goal with
  | |- context [forallb ?f ?l] => destruct (forallb f l) eqn:E; [|lra]
  end.
  split; [apply gather_time_nonneg|].
  apply Qlt_le_weak, gather_time_deadline; [reflexivity | exact E].
Qed.

Lemma execute_counters (api_delay : Product.t -> Action.t -> Q) (self : Engine) (now : Q)
      (candidates : list Candidate.t) :
  let report := fst (execute_scaling_actions api_delay self now candidates) in
  let self' := snd (execute_scaling_actions api_delay self now candidates) in
  let pm := performance_metrics self in
  let pm' := performance_metrics self' in
  Perf.scales_executed pm'
  = (Perf.scales_executed pm + Report.executed_actions report)%Z /\
  Perf.success_rate pm' = Report.success_rate report /\
  Perf.total_revenue_increase pm'
  = Perf.total_revenue_increase pm + Report.expected_return report /\
  Perf.last_optimization pm' = now + Report.execution_time report.
Proof.
  cbn zeta. unfold execute_scaling_actions, execute_body.
  destruct (0 <? _)%nat eqn:E.
  - apply Nat.ltb_lt in E.
    rewrite py_div_ok by (apply of_nat_nonzero; exact E).
    cbn. repeat split.
  - cbn. repeat split.
Qed.

(** X13.  A run of the executor adds [executed_actions] to
    [scales_executed], which never decreases, overwrites the success rate
    of the counters with the one of the report (no averaging), adds the
    expected return of the report to [total_revenue_increase] and stamps
    the end of the wait, at most 30 seconds after the start; the
    configuration of the engine is left as it was. *)
Theorem counters_update :
  forall (api_delay : Product.t -> Action.t -> Q) (self : Engine) (now : Q)
         (candidates : list Candidate.t),
    let report := fst (execute_scaling_actions api_delay self now candidates) in
    let self' := snd (execute_scaling_actions api_delay self now candidates) in
    let pm := performance_metrics self in
    let pm' := performance_metrics self' in
    Perf.scales_executed pm'
    = (Perf.scales_executed pm + Report.executed_actions report)%Z /\
    (Perf.scales_executed pm <= Perf.scales_executed pm')%Z /\
    Perf.success_rate pm' = Report.success_rate report /\
    Perf.total_revenue_increase pm'
    = Perf.total_revenue_increase pm + Report.expected_return report /\
    Perf.last_optimization pm' = now + Report.execution_time report /\
    now <= Perf.last_optimization pm' <= now + 30 /\
    config self' = config self /\
    scaling_thresholds self' = scaling_thresholds self /\
    scaling_multipliers self' = scaling_multipliers self.
Proof.
  intros api_delay self now candidates report self' pm pm'.
  destruct (execute_report api_delay self now candidates) as (He & _ & _ & _ & _ & Ht).
  fold report in He, Ht.
  pose proof (elapsed_range (create_tasks api_delay candidates)) as Hel.
  rewrite <- Ht in Hel.
  destruct (execute_counters api_delay self now candidates) as (H1 & H2 & H3 & H4).
  destruct (execute_keeps_configuration api_delay self now candidates) as (H5 & H6 & H7).
  fold report self' pm pm' in H1, H2, H3, H4. fold self' in H5, H6, H7.
  repeat split; try assumption.
  - rewrite H1, He. lia.
  - rewrite H4. lra.
  - rewrite H4. lra.
Qed.

(** X14.  An empty batch gives the report with every field 0; it leaves
    [scales_executed] and [total_revenue_increase] as they were and sets
    the success rate of the counters to 0, whatever it was. *)
Theorem empty_batch :
  forall (api_delay : Product.t -> Action.t -> Q) (self : Engine) (now : Q),
    let report := fst (execute_scaling_actions api_delay self now []) in
    let pm' := performance_metrics (snd (execute_scaling_actions api_delay self now [])) in
    report = Report.mk 0 0 0 0 0 0 /\
    Perf.success_rate pm' = 0 /\
    Perf.scales_executed pm' = Perf.scales_executed (performance_metrics self) /\
    Perf.total_revenue_increase pm'
    == Perf.total_revenue_increase (performance_metrics self).
Proof.
  intros api_delay self now. cbn.
  repeat split; [lia | lra].
Qed.

(** ** Batches of complete actions *)

Lemma total_of_acc (field : Action.t -> option Q) (l : list Action.t) :
  forall acc, total_of field l acc == acc + total_of field l 0.
Proof.
  induction l as [|a l IH]; intro acc; cbn [total_of fold_left].
  - lra.
  - fold (total_of field l (acc + dict_get (field a) 0)).
    fold (total_of field l (0 + dict_get (field a) 0)).
    rewrite (IH (acc + _)), (IH (0 + _)). lra.
Qed.

Lemma total_of_cons (field : Action.t -> option Q) (a : Action.t) (l : list Action.t) :
  total_of field (a :: l) 0 == dict_get (field a) 0 + total_of field l 0.
Proof.
  cbn [total_of fold_left]. fold (total_of field l (0 + dict_get (field a) 0)).
  rewrite total_of_acc. lra.
Qed.

Lemma complete_unit (api_delay : Product.t -> Action.t -> Q) (product : Product.t)
      (action : Action.t) :
  complete_action action = true ->
  exists kind b e,
    Action.budget action = Some b /\ Action.expected_increase action = Some e /\
    _execute_single_action api_delay product action
    = (api_delay product action, Ok (success_result kind b e)).
Proof.
  unfold complete_action, _execute_single_action.
  destruct (Action.type action) as [kind|]; [|discriminate].
  destruct (Action.budget action) as [b|] eqn:Hb; [|discriminate].
  destruct (Action.expected_increase action) as [e|] eqn:He; [|discriminate].
  intro Hk. exists kind, b, e. split; [reflexivity|]. split; [reflexivity|].
  cbn [dict_item].
  unfold _increase_ad_spend, _expand_audience, _expand_platforms, _optimize_pricing,
    strict_handler.
  rewrite Hb, He.
  destruct (known_kind_cases kind Hk) as [-> | [-> | [-> | ->]]]; reflexivity.
Qed.

(** What a batch of complete actions gives when every call is done
    before the deadline. *)
Lemma complete_units_results (api_delay : Product.t -> Action.t -> Q)
      (l : list (Product.t * Action.t)) :
  (forall product action, api_delay product action < 30) ->
  forallb complete_action (map snd l) = true ->
  let tasks := map (fun u => _execute_single_action api_delay (fst u) (snd u)) l in
  wait_for_gather 30 tasks = Some (map snd tasks) /\
  raised (map snd tasks) = [] /\
  length (returned (map snd tasks)) = length l /\
  Forall (fun r => has_status "success" r = true) (returned (map snd tasks)) /\
  sum_amount ActionResult.investment (returned (map snd tasks))
  == total_of Action.budget (map snd l) 0 /\
  sum_amount ActionResult.expected_return (returned (map snd tasks))
  == total_of Action.expected_increase (map snd l) 0.
Proof.
  intros Hfast. induction l as [|[p a] l IH]; intro Hc; cbn zeta.
  - repeat split; constructor.
  - cbn [map snd fst forallb] in Hc |- *. apply andb_true_iff in Hc.
    destruct Hc as [Ha Hl].
    destruct (IH Hl) as (Hw & Hr & Hn & Hs & Hi & He). cbn zeta in *.
    destruct (complete_unit api_delay p a Ha) as (kind & b & e & Eb & Ee & Eu).
    rewrite Eu. cbn [snd].
    set (rest := map (fun u => _execute_single_action api_delay (fst u) (snd u)) l) in *.
    assert (Hw' : wait_for_gather 30 ((api_delay p a, Ok (success_result kind b e)) :: rest)
                  = Some (Ok (success_result kind b e) :: map snd rest)).
    { unfold wait_for_gather in *. cbn [forallb fst map snd].
      rewrite (proj2 (Qlt_bool_iff _ _) (Hfast p a)). cbn [andb].
      match goal with
      | |- context [forallb ?f ?x] => destruct (forallb f x); [reflexivity | discriminate]
      end. }
    split; [exact Hw'|].
    change (raised (Ok (success_result kind b e) :: map snd rest))
      with (raised (map snd rest)).
    change (returned (Ok (success_result kind b e) :: map snd rest))
      with (success_result kind b e :: returned (map snd rest)).
    split; [exact Hr|]. split; [cbn [length]; now rewrite Hn|].
    split; [constructor; [reflexivity | exact Hs]|].
    rewrite !total_of_cons, Eb, Ee. cbn [sum_amount fold_right].
    fold (sum_amount ActionResult.investment (returned (map snd rest))).
    fold (sum_amount ActionResult.expected_return (returned (map snd rest))).
    rewrite Hi, He. cbn [success_result ActionResult.investment
                         ActionResult.expected_return dict_get].
    split; reflexivity.
Qed.

Lemma ratio_percent (n : nat) :
  (0 < n)%nat -> inject_Z (Z.of_nat n) / of_nat n * 100 == 100.
Proof.
  intro H. unfold of_nat.
  assert (Hn : ~ inject_Z (Z.of_nat n) == 0) by (apply of_nat_nonzero; exact H).
  set (q := inject_Z (Z.of_nat n)) in *.
  assert (E : q / q == 1) by (field; exact Hn).
  rewrite E. reflexivity.
Qed.

Lemma complete_batch_report (api_delay : Product.t -> Action.t -> Q) (self : Engine)
      (now : Q) (candidates : list Candidate.t) :
  (forall product action, api_delay product action < 30) ->
  forallb complete_action (planned_actions candidates) = true ->
  let report := fst (execute_scaling_actions api_delay self now candidates) in
  let n := length (planned_actions candidates) in
  Report.executed_actions report = Z.of_nat n /\
  Report.failed_actions report = 0%Z /\
  Report.total_investment report
  == total_of Action.budget (planned_actions candidates) 0 /\
  Report.expected_return report
  == total_of Action.expected_increase (planned_actions candidates) 0 /\
  Report.success_rate report == (if (0 <? n)%nat then 100 else 0) /\
  Forall (fun r => has_status "success" r = true)
         (returned (action_results (create_tasks api_delay candidates))).
Proof.
  intros Hfast Hc report n.
  rewrite planned_actions_units in Hc.
  destruct (complete_units_results api_delay (units candidates) Hfast Hc)
    as (Hw & Hr & Hn & Hs & Hi & He). cbn zeta in *.
  rewrite <- create_tasks_units in *.
  destruct (execute_report api_delay self now candidates)
    as (Re & Rf & Ri & Rr & Rs & _).
  fold report in Re, Rf, Ri, Rr, Rs.
  assert (Hres : action_results (create_tasks api_delay candidates)
                 = map snd (create_tasks api_delay candidates))
    by (unfold action_results; now rewrite Hw).
  rewrite Hres in *.
  assert (Hlen : length (map snd (create_tasks api_delay candidates)) = n)
    by (rewrite length_map; apply create_tasks_length).
  assert (Hun : length (units candidates) = n)
    by (subst n; rewrite planned_actions_units; now rewrite length_map).
  rewrite Hn, Hun in Re. rewrite Hr in Rf. rewrite Hlen, Hn, Hun in Rs.
  subst n. rewrite planned_actions_units.
  split; [now rewrite planned_actions_units in Re|].
  split; [exact Rf|].
  split; [now rewrite Ri, Hi|]. split; [now rewrite Rr, He|].
  split; [|exact Hs].
  rewrite Rs. rewrite <- planned_actions_units.
  destruct (0 <? length (planned_actions candidates))%nat eqn:E; [|reflexivity].
  apply Nat.ltb_lt in E. now apply ratio_percent.
Qed.

(** X15.  When every action of a batch has a known kind, a budget and an
    expected increase, and every external call takes less than 30
    seconds, every unit succeeds: no action fails, [executed_actions] is
    the number of actions, the totals of the report are the sums of the
    budgets and of the expected increases of the actions, and the success
    rate is 100 (0 for a batch without actions). *)
Theorem complete_batch_succeeds :
  forall (api_delay : Product.t -> Action.t -> Q) (self : Engine) (now : Q)
         (candidates : list Candidate.t),
    (forall product action, api_delay product action < 30) ->
    forallb complete_action (planned_actions candidates) = true ->
    let report := fst (execute_scaling_actions api_delay self now candidates) in
    let n := length (planned_actions candidates) in
    Report.executed_actions report = Z.of_nat n /\
    Report.failed_actions report = 0%Z /\
    Report.total_investment report
    == total_of Action.budget (planned_actions candidates) 0 /\
    Report.expected_return report
    == total_of Action.expected_increase (planned_actions candidates) 0 /\
    Report.success_rate report == (if (0 <? n)%nat then 100 else 0) /\
    Forall (fun r => has_status "success" r = true)
           (returned (action_results (create_tasks api_delay candidates))).
Proof.
  intros api_delay self now candidates Hfast Hc.
  exact (complete_batch_report api_delay self now candidates Hfast Hc).
Qed.

Lemma complete_batch_succeeds_witness :
  Report.executed_actions
    (fst (execute_scaling_actions simulated_delay (create_scaling_engine 0) 0
            [candidate_with [price_action (create_scaling_engine 0) 750]]))
  = 1%Z.
Proof.
  destruct (complete_batch_succeeds simulated_delay (create_scaling_engine 0) 0
              [candidate_with [price_action (create_scaling_engine 0) 750]])
    as (He & _).
  - intros product action. reflexivity.
  - reflexivity.
  - exact He.
Defined.

(** ** The scoring and the execution, composed *)

Lemma strategy_actions_complete (self : Engine) (metrics : Metrics.t) :
  forallb complete_action (strategy_actions self metrics) = true.
Proof.
  unfold strategy_actions.
  destruct (Qle_bool _ _), (Qlt_bool _ _), (Qlt_bool _ _); reflexivity.
Qed.

Lemma analyze_complete (self : Engine) (products : list Product.t) :
  forallb complete_action
          (planned_actions (analyze_scaling_opportunities self products)) = true.
Proof.
  apply forallb_forall. intros a Ha.
  unfold planned_actions in Ha. apply in_flat_map in Ha. destruct Ha as (c & Hc & Ha).
  destruct (analyze_incl _ _ _ Hc) as (p & _ & _ & ->).
  cbn [make_candidate Candidate.scaling_strategy] in Ha.
  rewrite generate_scaling_strategy_eq in Ha. cbn [Strategy.actions] in Ha.
  pose proof (strategy_actions_complete self (_calculate_product_metrics p)) as H.
  rewrite forallb_forall in H. exact (H a Ha).
Qed.

Lemma analyze_plans_nonempty (self : Engine) (products : list Product.t) :
  (length (analyze_scaling_opportunities self products)
   <= length (planned_actions (analyze_scaling_opportunities self products)))%nat.
Proof.
  assert (H : Forall (fun c => (1 <= length (Strategy.actions (Candidate.scaling_strategy c)))%nat)
                     (analyze_scaling_opportunities self products)).
  { apply Forall_forall. intros c Hc.
    destruct (analyze_incl _ _ _ Hc) as (p & _ & _ & ->).
    cbn [make_candidate Candidate.scaling_strategy].
    rewrite generate_scaling_strategy_eq. cbn [Strategy.actions].
    unfold strategy_actions. rewrite !length_app. cbn [length]. lia. }
  unfold planned_actions.
  induction H as [|c cs Hc _ IH]; [reflexivity|].
  cbn [flat_map length]. rewrite length_app. lia.
Qed.

Lemma analyze_length (self : Engine) (products : list Product.t) :
  (0 <= max_concurrent_scales (scaling_thresholds self))%Z ->
  length (analyze_scaling_opportunities self products)
  = Nat.min (Z.to_nat (max_concurrent_scales (scaling_thresholds self)))
            (length (filter (qualifies self) products)).
Proof.
  intro HK. unfold analyze_scaling_opportunities.
  rewrite slice_to_firstn by exact HK.
  rewrite length_firstn, (Permutation_length (sort_reverse_perm rank_key _)).
  now rewrite scaling_candidates_filter, length_map.
Qed.

Lemma slice_nil {A : Type} (lo hi : option Z) : @py_slice A lo hi [] = [].
Proof.
  unfold py_slice. rewrite skipn_nil. apply firstn_nil.
Qed.

(** X16.  When no product reaches the score 0.8, the cycle answers
    'no_opportunities' with a candidate count of 0 and no execution
    results, and the engine, counters included, is left untouched. *)
Theorem cycle_without_opportunities :
  forall (api_delay : Product.t -> Action.t -> Q) (self : Engine) (now : Q)
         (products : list Product.t),
    (forall product, In product products -> qualifies self product = false) ->
    run_scaling_cycle api_delay self now products
    = (Cycle.mk "no_opportunities" "No scaling opportunities found meeting criteria"
                0 None None 0,
       self).
Proof.
  intros api_delay self now products H.
  assert (E : analyze_scaling_opportunities self products = []).
  { unfold analyze_scaling_opportunities. rewrite scaling_candidates_filter.
    replace (filter (qualifies self) products) with (@nil Product.t).
    - apply slice_nil.
    - symmetry. induction products as [|p ps IH]; [reflexivity|].
      cbn [filter]. rewrite (H p (or_introl eq_refl)).
      apply IH. intros q Hq. apply H. now right. }
  unfold run_scaling_cycle. now rewrite E.
Qed.

Lemma cycle_without_opportunities_witness :
  run_scaling_cycle simulated_delay (create_scaling_engine 0) 0 sample_products
  = (Cycle.mk "no_opportunities" "No scaling opportunities found meeting criteria"
              0 None None 0,
     create_scaling_engine 0).
Proof.
  apply cycle_without_opportunities.
  intros product [<- | [<- | []]]; reflexivity.
Defined.

(** X17.  When the cap is positive, some product reaches 0.8 and every
    external call takes less than 30 seconds, the cycle answers 'success':
    the candidate count is min(K, Q) and at least 1, every planned action
    is executed and none fails, the success rate is 100, the message
    carries the number of executed actions, and the performance metrics
    returned are those of the engine after the run, whose
    [scales_executed] grew by the number of executed actions. *)
Theorem cycle_with_opportunities :
  forall (api_delay : Product.t -> Action.t -> Q) (self : Engine) (now : Q)
         (products : list Product.t) (product : Product.t),
    (forall product action, api_delay product action < 30) ->
    (0 < max_concurrent_scales (scaling_thresholds self))%Z ->
    In product products ->
    qualifies self product = true ->
    let cycle := fst (run_scaling_cycle api_delay self now products) in
    let self' := snd (run_scaling_cycle api_delay self now products) in
    let candidates := analyze_scaling_opportunities self products in
    let n := length (planned_actions candidates) in
    exists report,
      Cycle.status cycle = "success"%string /\
      Cycle.scaling_candidates cycle
      = Z.of_nat (Nat.min (Z.to_nat (max_concurrent_scales (scaling_thresholds self)))
                          (length (filter (qualifies self) products))) /\
      (1 <= Cycle.scaling_candidates cycle <= Z.of_nat n)%Z /\
      Cycle.execution_results cycle = Some report /\
      Report.executed_actions report = Z.of_nat n /\
      Report.failed_actions report = 0%Z /\
      Report.success_rate report == 100 /\
      Cycle.message cycle
      = ("Scaling cycle completed with " ++ py_str (Z.of_nat n) ++ " actions")%string /\
      Cycle.performance_metrics cycle = Some (performance_metrics self') /\
      Perf.scales_executed (performance_metrics self')
      = (Perf.scales_executed (performance_metrics self) + Z.of_nat n)%Z.
Proof.
  intros api_delay self now products product Hfast HK Hin Hq cycle self' candidates n.
  pose proof (analyze_length self products (Z.lt_le_incl _ _ HK)) as Hlen.
  fold candidates in Hlen.
  assert (Hq1 : (1 <= length (filter (qualifies self) products))%nat).
  { assert (Hf : In product (filter (qualifies self) products))
      by (apply filter_In; auto).
    destruct (filter (qualifies self) products); [destruct Hf | cbn; lia]. }
  pose proof (analyze_plans_nonempty self products) as Hplans.
  fold candidates in Hplans. fold n in Hplans.
  destruct (complete_batch_report api_delay self now candidates Hfast
              (analyze_complete self products)) as (He & Hf & _ & _ & Hs & _).
  fold n in He, Hs.
  destruct (execute_counters api_delay self now candidates) as [Hc _].
  rewrite He in Hc.
  subst cycle self'. unfold run_scaling_cycle. fold candidates.
  destruct candidates as [|c cs] eqn:Ec; [cbn in Hlen; lia|].
  rewrite <- Ec in *.
  destruct (execute_scaling_actions api_delay self now candidates) as [report self2].
  cbn [fst snd] in *.
  exists report.
  cbn [Cycle.status Cycle.scaling_candidates Cycle.execution_results Cycle.message
       Cycle.performance_metrics get_performance_metrics].
  rewrite He, Hlen.
  assert (Hn : (0 <? n)%nat = true) by (apply Nat.ltb_lt; lia).
  rewrite Hn in Hs.
  repeat split; try reflexivity; try assumption; lia.
Qed.

Lemma cycle_with_opportunities_witness :
  Cycle.status
    (fst (run_scaling_cycle simulated_delay (create_scaling_engine 0) 0
            [strong_product 1000]))
  = "success"%string.
Proof.
  destruct (cycle_with_opportunities simulated_delay (create_scaling_engine 0) 0
              [strong_product 1000] (strong_product 1000))
    as (report & Hs & _).
  - intros product action. reflexivity.
  - reflexivity.
  - left. reflexivity.
  - vm_compute. reflexivity.
  - exact Hs.
Defined.

(** ** Only the last 14 samples count *)

Lemma skipn_app_tail {A : Type} (k : nat) (older h : list A) :
  (k <= length h)%nat ->
  skipn (length (older ++ h) - k) (older ++ h) = skipn (length h - k) h.
Proof.
  intro H. rewrite length_app, skipn_app.
  rewrite skipn_all2 by lia. cbn [app]. f_equal. lia.
Qed.

(** X18.  Samples older than the last 14 do not influence the metrics: a
    history of at least 14 samples gives the same metrics with any older
    samples put before it. *)
Theorem older_samples_ignored :
  forall (product : Product.t) (older h : list Q),
    (14 <= length h)%nat ->
    _calculate_product_metrics (with_history product (older ++ h))
    = _calculate_product_metrics (with_history product h).
Proof.
  intros product older h H.
  unfold _calculate_product_metrics, product_metrics_body.
  cbn [with_history Product.historical_data dict_get].
  assert (Hl : length (older ++ h) = (length older + length h)%nat) by apply length_app.
  destruct (length (older ++ h) <? 2)%nat eqn:E1; [apply Nat.ltb_lt in E1; lia|].
  destruct (length h <? 2)%nat eqn:E2; [apply Nat.ltb_lt in E2; lia|].
  rewrite !recent_window_eq, !older_window_eq.
  rewrite (skipn_app_tail 7 older h) by lia.
  rewrite (skipn_app_tail 14 older h) by lia.
  replace (length (older ++ h) - 7 - (length (older ++ h) - 14))%nat
    with (length h - 7 - (length h - 14))%nat by lia.
  rewrite (Nat.min_l 7 (length (older ++ h))) by lia.
  rewrite (Nat.min_l 7 (length h)) by lia.
  reflexivity.
Qed.

Lemma older_samples_ignored_witness :
  _calculate_product_metrics
    (with_history no_product ([1; 2; 3] ++ rebound_history))
  = _calculate_product_metrics (with_history no_product rebound_history).
Proof.
  apply older_samples_ignored. vm_compute. lia.
Defined.

(** ** The risk adjustment *)

(** X19.  For a base ROI that is not negative the estimate is ordered by
    risk: a high-risk strategy is estimated at most as high as the same
    strategy at any other risk level, which is estimated at most as high
    as the low-risk one. *)
Theorem risk_orders_estimate :
  forall (metrics : Metrics.t) (strategy : Strategy.t) (risk : string),
    0 <= dict_get (Strategy.expected_roi strategy) 0 ->
    _estimate_roi metrics (with_risk strategy "high")
    <= _estimate_roi metrics (with_risk strategy risk) /\
    _estimate_roi metrics (with_risk strategy risk)
    <= _estimate_roi metrics (with_risk strategy "low").
Proof.
  intros metrics strategy risk Hb. unfold _estimate_roi.
  cbn [with_risk Strategy.expected_roi Strategy.risk_level opt_string_eqb].
  replace (String.eqb "high" "high") with true by reflexivity.
  replace (String.eqb "low" "high") with false by reflexivity.
  replace (String.eqb "low" "low") with true by reflexivity.
  set (base := dict_get (Strategy.expected_roi strategy) 0) in *.
  assert (Hboost : 0 <= (if Qlt_bool 5 (dict_get (Metrics.conversion_rate metrics) 0)
                         then (if Qlt_bool 50 (dict_get (Metrics.growth_rate metrics) 0)
                               then base * (13 # 10) else base) * (12 # 10)
                         else (if Qlt_bool 50 (dict_get (Metrics.growth_rate metrics) 0)
                               then base * (13 # 10) else base))).
  { destruct (Qlt_bool 5 _), (Qlt_bool 50 _); lra. }
  set (boosted := if Qlt_bool 5 _ then _ else _) in *.
  split; apply clamp_mono;
    destruct (String.eqb risk "high"); try destruct (String.eqb risk "low"); lra.
Qed.

Lemma risk_orders_estimate_witness :
  _estimate_roi plain_metrics (with_risk medium_strategy "high")
  <= _estimate_roi plain_metrics (with_risk medium_strategy "medium") /\
  _estimate_roi plain_metrics (with_risk medium_strategy "medium")
  <= _estimate_roi plain_metrics (with_risk medium_strategy "low").
Proof.
  apply risk_orders_estimate. discriminate.
Defined.

(** ** A timeout is reported as a full success *)

(** X20.  When some unit is still pending at the deadline, the report
    counts every unit of the batch as executed, so the success rate of
    the report and of the counters is 100, and [scales_executed] grows by
    the number of units of the batch. *)
Theorem timeout_counts_as_success :
  forall (api_delay : Product.t -> Action.t -> Q) (self : Engine) (now : Q)
         (candidates : list Candidate.t) (pending : timed (res ActionResult.t)),
    let report := fst (execute_scaling_actions api_delay self now candidates) in
    let self' := snd (execute_scaling_actions api_delay self now candidates) in
    let n := length (planned_actions candidates) in
    In pending (create_tasks api_delay candidates) ->
    30 <= fst pending ->
    Report.success_rate report == 100 /\
    Perf.success_rate (performance_metrics self') == 100 /\
    Perf.scales_executed (performance_metrics self')
    = (Perf.scales_executed (performance_metrics self) + Z.of_nat n)%Z.
Proof.
  intros api_delay self now candidates pending report self' n Hin Hlate.
  assert (Hnone : wait_for_gather 30 (create_tasks api_delay candidates) = None)
    by (apply wait_for_gather_none; eauto).
  destruct (execute_report api_delay self now candidates) as (He & _ & _ & _ & Hs & _).
  destruct (execute_counters api_delay self now candidates) as (Hc & Hr & _).
  fold report in He, Hs, Hc, Hr. fold self' in Hc, Hr.
  assert (Hres : action_results (create_tasks api_delay candidates)
                 = repeat (Ok timeout_result) n).
  { unfold action_results. rewrite Hnone. subst n. now rewrite create_tasks_length. }
  rewrite Hres in He, Hs. rewrite returned_repeat_timeout, repeat_length in He, Hs.
  assert (Hn : (0 < n)%nat).
  { subst n. rewrite <- (create_tasks_length api_delay candidates).
    destruct (create_tasks api_delay candidates); [destruct Hin | cbn; lia]. }
  assert (Hrate : Report.success_rate report == 100).
  { rewrite Hs, repeat_length. rewrite (proj2 (Nat.ltb_lt 0 n) Hn).
    now apply ratio_percent. }
  split; [exact Hrate|]. split; [now rewrite Hr|]. now rewrite Hc, He.
Qed.

Lemma timeout_counts_as_success_witness :
  Report.success_rate
    (fst (execute_scaling_actions slow_pricing (create_scaling_engine 0) 0 two_unit_batch))
  == 100.
Proof.
  destruct (timeout_counts_as_success slow_pricing (create_scaling_engine 0) 0
              two_unit_batch
              (_execute_single_action slow_pricing (strong_product 750)
                 (price_action (create_scaling_engine 0) 750)))
    as (Hrate & _).
  - right. left. reflexivity.
  - vm_compute. discriminate.
  - exact Hrate.
Defined.
